(** * Agora protocol negotiation: schema model, feasibility check,
      negotiator and adapter synthesizer

    A shallow embedding of the Python sources

    - [toolformers/base.py]                      (Parameter, Tool)
    - [receiver/components/protocol_checker.py]  (ReceiverProtocolChecker)
    - [sender/components/negotiator.py]          (SenderNegotiator)
    - [sender/components/programmer.py]          (SenderProgrammer)

    Python [str] values are Rocq strings whose characters are the code
    points below 256, but for the reply that the feasibility check folds
    to lower case, which is a text over a wider alphabet ([PyText]);
    Python dictionaries are finite maps with string keys; calls to the
    reasoning backend and to the counterparty are explicit state-passing
    functions. *)

From Stdlib Require Import String Ascii List ZArith Lia Bool.
From stdpp Require Import gmap strings list fin_maps.

#[local] Set Warnings "-register-all".
#[local] Open Scope string_scope.
#[local] Open Scope nat_scope.

(** ** Python string operations *)

Module PyStr.

(** [str.lower()] on one code point below 256: A-Z and the upper-case
    letters of the Latin-1 block (all of U+00C0..U+00DE but the
    multiplication sign U+00D7) move up by 32. *)
Definition lower_char (c : ascii) : ascii :=
  let n := nat_of_ascii c in
  if ((65 <=? n) && (n <=? 90))
     || ((192 <=? n) && (n <=? 222) && negb (n =? 215))
  then ascii_of_nat (n + 32) else c.

(** [str.isspace()] on one code point below 256: TAB..CR, FS..US, space,
    NEL and the no-break space. *)
Definition isspace (c : ascii) : bool :=
  let n := nat_of_ascii c in
  ((9 <=? n) && (n <=? 13)) || ((28 <=? n) && (n <=? 32))
  || (n =? 133) || (n =? 160).

Fixpoint lstrip (s : string) : string :=
  match s with
  | EmptyString => EmptyString
  | String c t => if isspace c then lstrip t else s
  end.

Fixpoint rstrip (s : string) : string :=
  match s with
  | EmptyString => EmptyString
  | String c t =>
      match rstrip t with
      | EmptyString => if isspace c then EmptyString else String c EmptyString
      | r => String c r
      end
  end.

(** [s.strip()]: whitespace removed at both ends. *)
Definition strip (s : string) : string := lstrip (rstrip s).

Fixpoint drop (n : nat) (s : string) : string :=
  match n, s with
  | O, _ => s
  | S _, EmptyString => EmptyString
  | S k, String _ t => drop k t
  end.

(** [sub in s]: [sub] occurs in [s] at some position. *)
Fixpoint contains (sub s : string) : bool :=
  String.prefix sub s
  || match s with
     | EmptyString => false
     | String _ t => contains sub t
     end.

(** [s.replace(old, new)] for a non-empty [old]: scan from the left; at
    an occurrence of [old] emit [new] and jump over the occurrence,
    otherwise copy one character. [skip] counts the characters of a
    matched occurrence still to be jumped over. *)
Fixpoint replace_from (skip : nat) (old new s : string) : string :=
  match s with
  | EmptyString => EmptyString
  | String c t =>
      match skip with
      | S k => replace_from k old new t
      | O =>
          if String.prefix old s
          then new +:+ replace_from (String.length old - 1) old new t
          else String c (replace_from 0 old new t)
      end
  end.

(** With an empty [old], Python puts [new] before every character and
    at the end. *)
Fixpoint intersperse (new s : string) : string :=
  match s with
  | EmptyString => new
  | String c t => new +:+ String c (intersperse new t)
  end.

Definition replace (old new s : string) : string :=
  match old with
  | EmptyString => intersperse new s
  | _ => replace_from 0 old new s
  end.

(** [sep.join(items)] *)
Fixpoint join (sep : string) (items : list string) : string :=
  match items with
  | [] => ""
  | [x] => x
  | x :: rest => x +:+ sep +:+ join sep rest
  end.

End PyStr.

(** ** Texts beyond the code points below 256

    [str.lower()] turns U+0130, LATIN CAPITAL LETTER I WITH DOT ABOVE,
    into the two code points U+0069 U+0307: a text can grow when it is
    folded to lower case, which no text over the code points below 256
    shows. The replies that the feasibility check reads are therefore
    texts over the code points below 256 together with U+0130 and U+0307
    (COMBINING DOT ABOVE), an alphabet that [lower()], [strip()] and
    slicing do not lead out of. *)
Module PyText.

Inductive code_point : Type :=
  | Below256 (c : ascii)
  | U0130
  | U0307.

Definition eqb (a b : code_point) : bool :=
  match a, b with
  | Below256 x, Below256 y => Ascii.eqb x y
  | U0130, U0130 | U0307, U0307 => true
  | _, _ => false
  end.

(** A string literal of the source, as a text. *)
Fixpoint of_string (s : string) : list code_point :=
  match s with
  | EmptyString => []
  | String c t => Below256 c :: of_string t
  end.

(** [str.lower()] on one code point: U+0130 becomes two code points,
    the combining dot stays, and a code point below 256 is folded as in
    [PyStr.lower_char]. *)
Definition lower_point (c : code_point) : list code_point :=
  match c with
  | Below256 a => [Below256 (PyStr.lower_char a)]
  | U0130 => [Below256 "i"; U0307]
  | U0307 => [U0307]
  end.

Fixpoint lower (t : list code_point) : list code_point :=
  match t with
  | [] => []
  | c :: rest => (lower_point c ++ lower rest)%list
  end.

(** Neither U+0130 nor U+0307 is whitespace. *)
Definition isspace (c : code_point) : bool :=
  match c with
  | Below256 a => PyStr.isspace a
  | U0130 | U0307 => false
  end.

Fixpoint lstrip (t : list code_point) : list code_point :=
  match t with
  | [] => []
  | c :: rest => if isspace c then lstrip rest else t
  end.

Fixpoint rstrip (t : list code_point) : list code_point :=
  match t with
  | [] => []
  | c :: rest =>
      match rstrip rest with
      | [] => if isspace c then [] else [c]
      | r => c :: r
      end
  end.

(** [t.strip()]: whitespace removed at both ends. *)
Definition strip (t : list code_point) : list code_point :=
  lstrip (rstrip t).

(** [t[-n:]] for [n > 0]: the whole of [t] when it has at most [n]
    code points, its last [n] code points otherwise. *)
Definition slice_last (n : nat) (t : list code_point) : list code_point :=
  skipn (length t - n) t.

Fixpoint prefix (p t : list code_point) : bool :=
  match p, t with
  | [], _ => true
  | _ :: _, [] => false
  | a :: p', b :: t' => eqb a b && prefix p' t'
  end.

(** [sub in t]: [sub] occurs in [t] at some position. *)
Fixpoint contains (sub t : list code_point) : bool :=
  prefix sub t
  || match t with
     | [] => false
     | _ :: rest => contains sub rest
     end.

End PyText.

(** ** Python values, exceptions and results *)

(** JSON-like Python values: what the schema renderings are made of. *)
Inductive json : Type :=
  | JNull
  | JBool (b : bool)
  | JNum (z : Z)
  | JStr (s : string)
  | JList (l : list json)
  | JDict (d : gmap string json).

(** The exceptions the modelled code raises. [ValueError msg arg] stands
    for [ValueError(msg + str(arg))]. [IllTyped key] is no Python
    exception: the fields of a [Parameter] are typed here as in the data
    model, and a dictionary entry of another JSON type, which Python
    would store unchecked, is outside the model. *)
Inductive exn : Type :=
  | KeyError (key : string)
  | AttributeError (msg : string)
  | UnboundLocalError (var : string)
  | ValueError (msg : string) (arg : json)
  | IllTyped (key : string).

Inductive result (A : Type) : Type :=
  | Ok (a : A)
  | Raise (e : exn).
Arguments Ok {A} a.
Arguments Raise {A} e.

Definition bind {A B : Type} (r : result A) (k : A -> result B) : result B :=
  match r with
  | Ok a => k a
  | Raise e => Raise e
  end.

Notation "'let*' x ':=' r 'in' k" := (bind r (fun x => k))
  (at level 10, x name, r at level 100, k at level 200).

(** [d[key]] *)
Definition getitem {V : Type} (d : gmap string V) (key : string) : result V :=
  match d !! key with
  | Some v => Ok v
  | None => Raise (KeyError key)
  end.

(** [key in d] *)
Definition has_key {V : Type} (d : gmap string V) (key : string) : bool :=
  match d !! key with
  | Some _ => true
  | None => false
  end.

Definition as_str (key : string) (v : json) : result string :=
  match v with
  | JStr s => Ok s
  | _ => Raise (IllTyped key)
  end.

Definition as_bool (key : string) (v : json) : result bool :=
  match v with
  | JBool b => Ok b
  | _ => Raise (IllTyped key)
  end.

Fixpoint as_strs (key : string) (l : list json) : result (list string) :=
  match l with
  | [] => Ok []
  | v :: rest =>
      let* s := as_str key v in
      let* ss := as_strs key rest in
      Ok (s :: ss)
  end.

Definition as_str_list (key : string) (v : json) : result (list string) :=
  match v with
  | JList l => as_strs key l
  | _ => Raise (IllTyped key)
  end.

(** [v == s] for a string literal [s] *)
Definition eq_str (v : json) (s : string) : bool :=
  match v with
  | JStr s' => String.eqb s' s
  | _ => false
  end.

Definition TAB : string := String (ascii_of_nat 9) "".
Definition NL : string := String (ascii_of_nat 10) "".

(** ** toolformers/base.py: parameters *)

(** The four subclasses of the class [Parameter] (a reserved word here,
    hence the small letter); the arguments of each constructor are those
    of its [__init__], in its order. *)
Inductive parameter : Type :=
  | StringParameter (name description : string) (required : bool)
  | EnumParameter (name description : string) (values : list string)
      (required : bool)
  | NumberParameter (name description : string) (required : bool)
  | ArrayParameter (name description : string) (required : bool)
      (item_schema : json).

Inductive ParameterClass : Type :=
  | StringParameterClass
  | EnumParameterClass
  | NumberParameterClass
  | ArrayParameterClass.

Definition class_of (p : parameter) : ParameterClass :=
  match p with
  | StringParameter _ _ _ => StringParameterClass
  | EnumParameter _ _ _ _ => EnumParameterClass
  | NumberParameter _ _ _ => NumberParameterClass
  | ArrayParameter _ _ _ _ => ArrayParameterClass
  end.

Definition name (p : parameter) : string :=
  match p with
  | StringParameter n _ _ | EnumParameter n _ _ _
  | NumberParameter n _ _ | ArrayParameter n _ _ _ => n
  end.

Definition description (p : parameter) : string :=
  match p with
  | StringParameter _ d _ | EnumParameter _ d _ _
  | NumberParameter _ d _ | ArrayParameter _ d _ _ => d
  end.

Definition required (p : parameter) : bool :=
  match p with
  | StringParameter _ _ r | EnumParameter _ _ _ r
  | NumberParameter _ _ r | ArrayParameter _ _ r _ => r
  end.

Definition as_openai_info (p : parameter) : gmap string json :=
  match p with
  | StringParameter name description _ =>
      {[ "type" := JStr "string";
         "name" := JStr name;
         "description" := JStr description ]}
  | EnumParameter _ description values _ =>
      {[ "type" := JStr "string";
         "description" := JStr description;
         "values" := JList (JStr <$> values) ]}
  | NumberParameter _ description _ =>
      {[ "type" := JStr "number";
         "description" := JStr description ]}
  | ArrayParameter _ description _ item_schema =>
      {[ "type" := JStr "array";
         "description" := JStr description;
         "items" := item_schema ]}
  end.

Definition as_standard_api (p : parameter) : gmap string json :=
  match p with
  | StringParameter name description required =>
      {[ "type" := JStr "string";
         "name" := JStr name;
         "description" := JStr description;
         "required" := JBool required ]}
  | EnumParameter name description values required =>
      {[ "type" := JStr "enum";
         "name" := JStr name;
         "description" := JStr description;
         "values" := JList (JStr <$> values);
         "required" := JBool required ]}
  | NumberParameter name description required =>
      {[ "type" := JStr "number";
         "name" := JStr name;
         "description" := JStr description;
         "required" := JBool required ]}
  | ArrayParameter name description required item_schema =>
      {[ "type" := JStr "array";
         "name" := JStr name;
         "description" := JStr description;
         "required" := JBool required;
         "item_schema" := item_schema ]}
  end.

Definition as_gemini_tool (p : parameter) : gmap string json :=
  match p with
  | StringParameter _ description _ =>
      {[ "type" := JStr "string";
         "description" := JStr description ]}
  | EnumParameter _ description values _ =>
      {[ "description" := JStr description;
         "type" := JStr "string";
         "enum" := JList (JStr <$> values) ]}
  | NumberParameter _ description _ =>
      {[ "description" := JStr description;
         "type" := JStr "number" ]}
  | ArrayParameter _ description _ item_schema =>
      {[ "description" := JStr description;
         "type" := JStr "array";
         "items" := item_schema ]}
  end.

(** The f-string fragment [{", required" if self.required else ""}]. *)
Definition required_mark (required : bool) : string :=
  if required then ", required" else "".

Section Renderings.

(** [json.dumps(obj, indent=...)] of the standard library; [None] is the
    default of the keyword. *)
Variable json_dumps : option nat -> json -> string.

Definition as_natural_language (p : parameter) : string :=
  match p with
  | StringParameter name description required =>
      name +:+ " (string" +:+ required_mark required +:+ "): "
        +:+ description +:+ "."
  | EnumParameter name description values required =>
      name +:+ " (enum" +:+ required_mark required +:+ "): "
        +:+ description +:+ ". Possible values: "
        +:+ PyStr.join ", " values
  | NumberParameter name description _ =>
      name +:+ " (number): " +:+ description
  | ArrayParameter name description _ item_schema =>
      name +:+ " (array): " +:+ description
        +:+ ". Each item should follow the JSON schema: "
        +:+ json_dumps None item_schema
  end.

Definition as_documented_python (p : parameter) : string :=
  match p with
  | StringParameter name description required =>
      name +:+ " (str" +:+ required_mark required +:+ "): "
        +:+ description +:+ "."
  | EnumParameter name description values required =>
      name +:+ " (str" +:+ required_mark required +:+ "): "
        +:+ description +:+ ". Possible values: "
        +:+ PyStr.join ", " values
  | NumberParameter name description _ =>
      name +:+ " (number): " +:+ description
  | ArrayParameter name description _ item_schema =>
      name +:+ " (list): " +:+ description
        +:+ ". Each item should follow the JSON schema: "
        +:+ json_dumps None item_schema
  end.

End Renderings.

(** [cls.from_standard_api(api_info)]: the static method is looked up
    on the class. [StringParameter] and [EnumParameter] define it;
    [NumberParameter] and [ArrayParameter] do not, and neither does the
    base class, so the lookup raises [AttributeError]. *)
Definition from_standard_api (cls : ParameterClass)
    (api_info : gmap string json) : result parameter :=
  match cls with
  | StringParameterClass =>
      let* name := (let* v := getitem api_info "name" in as_str "name" v) in
      let* description :=
        (let* v := getitem api_info "description" in as_str "description" v) in
      let* required :=
        (let* v := getitem api_info "required" in as_bool "required" v) in
      Ok (StringParameter name description required)
  | EnumParameterClass =>
      let* name := (let* v := getitem api_info "name" in as_str "name" v) in
      let* description :=
        (let* v := getitem api_info "description" in as_str "description" v) in
      let* values :=
        (let* v := getitem api_info "values" in as_str_list "values" v) in
      let* required :=
        (let* v := getitem api_info "required" in as_bool "required" v) in
      Ok (EnumParameter name description values required)
  | NumberParameterClass =>
      Raise (AttributeError
        "type object 'NumberParameter' has no attribute 'from_standard_api'")
  | ArrayParameterClass =>
      Raise (AttributeError
        "type object 'ArrayParameter' has no attribute 'from_standard_api'")
  end.

Definition parameter_from_openai_api (parameter_name : string)
    (schema : gmap string json) (required : bool) : result parameter :=
  if has_key schema "enum" then
    let* description :=
        (let* v := getitem schema "description" in as_str "description" v) in
    let* values := (let* v := getitem schema "enum" in as_str_list "enum" v) in
    Ok (EnumParameter parameter_name description values required)
  else
    let* ty := getitem schema "type" in
    if eq_str ty "string" then
      let* description :=
        (let* v := getitem schema "description" in as_str "description" v) in
      Ok (StringParameter parameter_name description required)
    else if eq_str ty "number" then
      let* description :=
        (let* v := getitem schema "description" in as_str "description" v) in
      Ok (NumberParameter parameter_name description required)
    else if eq_str ty "array" then
      let* description :=
        (let* v := getitem schema "description" in as_str "description" v) in
      let* items := getitem schema "items" in
      Ok (ArrayParameter parameter_name description required items)
    else
      Raise (ValueError "Unknown parameter type: " ty).

(** ** toolformers/base.py: tools *)

(** An exception raised inside a tool's function, seen through what the
    call boundary uses of it: whether it is an instance of [Exception]
    (and not only of [BaseException], as [KeyboardInterrupt] and
    [SystemExit] are), and its text [str(e)]. *)
Record raised : Type := {
  is_Exception : bool;
  str_of : string
}.

(** What a call does: it returns a value or an exception leaves it. *)
Inductive outcome (A : Type) : Type :=
  | Returned (v : A)
  | Propagated (e : raised).
Arguments Returned {A} v.
Arguments Propagated {A} e.

Module Tool.

#[local] Abbreviation parameter_name := name (only parsing).
#[local] Abbreviation parameter_required := required (only parsing).
#[local] Abbreviation parameter_as_openai_info := as_openai_info (only parsing).
#[local] Abbreviation parameter_as_standard_api := as_standard_api (only parsing).
#[local] Abbreviation parameter_as_natural_language :=
  as_natural_language (only parsing).
#[local] Abbreviation parameter_as_documented_python :=
  as_documented_python (only parsing).

(** [function] takes the positional and the keyword arguments. *)
Record t : Type := {
  name : string;
  description : string;
  parameters : list parameter;
  function : list json -> gmap string json -> outcome json;
  output_schema : option json
}.

(** The try/except of the source: an [Exception] becomes the returned
    text, anything else that is raised leaves the call. The [print]
    calls are not modelled. *)
Definition call_tool_for_toolformer (self : t) (args : list json)
    (kwargs : gmap string json) : outcome json :=
  match function self args kwargs with
  | Returned tool_reply => Returned tool_reply
  | Propagated e =>
      if is_Exception e
      then Returned (JStr ("Tool call failed: " +:+ str_of e))
      else Propagated e
  end.

(** The closure [f] of [as_executable_function]: no try/except. *)
Definition as_executable_function (self : t) (args : list json)
    (kwargs : gmap string json) : outcome json :=
  function self args kwargs.

(** [{parameter.name : parameter.as_openai_info() for parameter in ...}]:
    a later parameter of the same name replaces an earlier one. *)
Definition properties (ps : list parameter) : gmap string json :=
  foldl (fun m p => <[parameter_name p := JDict (parameter_as_openai_info p)]> m)
    ∅ ps.

(** [[parameter.name for parameter in ... if parameter.required]] *)
Definition required_names (ps : list parameter) : list json :=
  (fun p => JStr (parameter_name p)) <$> List.filter parameter_required ps.

Definition as_openai_info (self : t) : gmap string json :=
  {[ "type" := JStr "function";
     "function" := JDict
       {[ "name" := JStr (name self);
          "description" := JStr (description self);
          "parameters" := JDict
            {[ "type" := JStr "object";
               "properties" := JDict (properties (parameters self));
               "required" := JList (required_names (parameters self)) ]} ]} ]}.

Definition as_llama_schema (self : t) : gmap string json :=
  let schema : gmap string json :=
    {[ "name" := JStr (name self);
       "description" := JStr (description self);
       "parameters" := JDict (properties (parameters self));
       "required" := JList (required_names (parameters self)) ]} in
  match output_schema self with
  | Some o => <["output_schema" := o]> schema
  | None => schema
  end.

Definition as_standard_api (self : t) : gmap string json :=
  {[ "name" := JStr (name self);
     "description" := JStr (description self);
     "parameters" :=
       JList ((fun p => JDict (parameter_as_standard_api p))
                <$> parameters self) ]}.

Section Text.

Variable json_dumps : option nat -> json -> string.

(** The loop [for parameter in self.parameters: text += '\t' + ... + '\n'] *)
Fixpoint parameter_lines (render : parameter -> string)
    (ps : list parameter) : string :=
  match ps with
  | [] => ""
  | p :: rest => TAB +:+ render p +:+ NL +:+ parameter_lines render rest
  end.

Definition returns_clause (self : t) : string :=
  match output_schema self with
  | Some o => "\Returns a dictionary with schema: " +:+ json_dumps (Some 2) o
  | None => ""
  end.

Definition as_natural_language (self : t) : string :=
  let nl :=
    "Function " +:+ name self +:+ ": " +:+ description self
      +:+ ". Parameters:" +:+ NL in
  let nl :=
    match parameters self with
    | [] => nl +:+ "No parameters."
    | ps => nl +:+ parameter_lines (parameter_as_natural_language json_dumps) ps
    end in
  nl +:+ returns_clause self.

Definition as_documented_python (self : t) : string :=
  let documented_python :=
    "Tool " +:+ name self +:+ ":" +:+ NL +:+ NL +:+ description self
      +:+ NL +:+ "Parameters:" +:+ NL in
  let documented_python :=
    match parameters self with
    | [] => documented_python +:+ "No parameters."
    | ps =>
        documented_python
          +:+ parameter_lines (parameter_as_documented_python json_dumps) ps
    end in
  documented_python +:+ returns_clause self.

End Text.

End Tool.

(** ** The reasoning backend

    [Toolformer.new_conversation(prompt, tools, category)] gives a
    conversation; a conversation takes a message and gives a reply and
    its next state. The prompts are constants of the sources whose
    wording no property below depends on. *)

(** ** receiver/components/protocol_checker.py *)

Section ProtocolChecker.

Context {Conversation : Type}.
Variable new_conversation : string -> list Tool.t -> string -> Conversation.
(** The reply of this conversation is a text over the wider alphabet:
    the check folds it to lower case. *)
Variable chat :
  Conversation -> string -> list PyText.code_point * Conversation.
Variable json_dumps : option nat -> json -> string.
Variable CHECKER_TOOL_PROMPT : string.

(** The loop [for tool in tools: message += ... + '\n\n'] *)
Fixpoint documented_tools (tools : list Tool.t) : string :=
  match tools with
  | [] => ""
  | tool :: rest =>
      Tool.as_documented_python json_dumps tool +:+ NL +:+ NL
        +:+ documented_tools rest
  end.

Definition checker_message (protocol_document : string)
    (tools : list Tool.t) : string :=
  let message :=
    "Protocol document:" +:+ NL +:+ NL +:+ protocol_document +:+ NL +:+ NL
      +:+ "Functions that the implementer will have access to:"
      +:+ NL +:+ NL in
  match tools with
  | [] => message +:+ "No additional functions provided"
  | _ => message +:+ documented_tools tools
  end.

(** The reply of the one exchange with the backend. *)
Definition checker_reply (protocol_document : string)
    (tools : list Tool.t) : list PyText.code_point :=
  let message := checker_message protocol_document tools in
  let conversation :=
    new_conversation CHECKER_TOOL_PROMPT [] "protocolChecking" in
  fst (chat conversation message).

(** [ReceiverProtocolChecker.__call__]: the value returned is
    ['yes' in reply.lower().strip()[-10:]]. *)
Definition ReceiverProtocolChecker_call (protocol_document : string)
    (tools : list Tool.t) : bool :=
  let reply := checker_reply protocol_document tools in
  PyText.contains (PyText.of_string "yes")
    (PyText.slice_last 10 (PyText.strip (PyText.lower reply))).

End ProtocolChecker.

(** The decision rule in the words of the specification: the three
    letters of "yes", each in either case, stand next to each other
    somewhere in the last 10 characters of the trimmed reply. *)
Definition either_case (small capital : ascii) (c : PyText.code_point)
    : Prop :=
  c = PyText.Below256 small \/ c = PyText.Below256 capital.

Definition yes_occurs_ignoring_case (text : list PyText.code_point) : Prop :=
  exists before y e s after,
    text = (before ++ y :: e :: s :: after)%list
    /\ either_case "y" "Y" y /\ either_case "e" "E" e
    /\ either_case "s" "S" s.

Definition spec_feasible (reply : list PyText.code_point) : Prop :=
  yes_occurs_ignoring_case (PyText.slice_last 10 (PyText.strip reply)).

(** A reply that affirms and then holds seven times U+0130: ten code
    points, which [lower()] makes seventeen. *)
Definition dotted_reply : list PyText.code_point :=
  (PyText.of_string "YES" ++ repeat PyText.U0130 7)%list.

Definition dotted_chat (conversation : unit) (message : string)
    : list PyText.code_point * unit :=
  (dotted_reply, conversation).

(** ** utils.extract_substring *)

(** What follows the first occurrence of [tag] in [text]. *)
Fixpoint text_after (tag text : string) : option string :=
  if String.prefix tag text then Some (PyStr.drop (String.length tag) text)
  else match text with
       | EmptyString => None
       | String _ rest => text_after tag rest
       end.

(** What precedes the first occurrence of [tag] in [text]. *)
Fixpoint text_before (tag text : string) : option string :=
  if String.prefix tag text then Some ""
  else match text with
       | EmptyString => None
       | String c rest => String c <$> text_before tag rest
       end.

(** Modelled from the spec: [utils.extract_substring] is imported by the
    negotiator and the programmer and is not among the sources. The
    specification describes it as the extraction of a delimited block,
    which fails when there are no matching delimiters or the closing tag
    is missing. The components below take the function as a parameter;
    this model instantiates it on concrete inputs. *)
Definition extract_substring_model (text start_tag end_tag : string)
    : option string :=
  match text_after start_tag text with
  | None => None
  | Some rest => text_before end_tag rest
  end.

(** ** sender/components/negotiator.py *)

(** One pass through the body of the loop: the message sent to the
    conversation, its reply, and what was extracted from the reply. *)
Record round : Type := {
  outgoing : string;
  reply : string;
  extracted : option string
}.

Section Negotiator.

Context {Conversation Party TaskSchema Metadata Protocol : Type}.
Variable new_conversation : string -> list Tool.t -> string -> Conversation.
Variable chat : Conversation -> string -> string * Conversation.
Variable extract_substring : string -> string -> string -> option string.
Variable extract_metadata : string -> Metadata.
(** [common.core]: the constructor [Protocol(document, sources, metadata)],
    [TaskSchema.from_taskschemalike] and [str] of a task schema. *)
Variable mkProtocol : string -> list string -> Metadata -> Protocol.
Variable from_taskschemalike : json -> TaskSchema.
Variable str_task_schema : TaskSchema -> string.
Variable TASK_NEGOTIATOR_PROMPT : string.
(** The other party: a response dictionary and the party's next state. *)
Variable callback : Party -> string -> gmap string string * Party.

(** Lines 69-72: the next outgoing message, from the response. *)
Definition next_message (response : gmap string string) : result string :=
  let* status := getitem response "status" in
  if String.eqb status "success" then getitem response "body"
  else
    let* message := getitem response "message" in
    Ok ("Error interacting with the other party: " +:+ message).

(** [for i in range(n)]: the result of the call, and the rounds made. *)
Fixpoint negotiation_rounds (n : nat) (conversation : Conversation)
    (party : Party) (other_message : string)
    : result (option Protocol) * list round :=
  match n with
  | O => (Ok None, [])
  | S n' =>
      let '(message, conversation) := chat conversation other_message in
      let protocol :=
        extract_substring message "<FINALPROTOCOL>" "</FINALPROTOCOL>" in
      let this :=
        {| outgoing := other_message; reply := message;
           extracted := protocol |} in
      match protocol with
      | None =>
          let '(response, party) := callback party message in
          match next_message response with
          | Ok other_message =>
              let '(found_protocol, later) :=
                negotiation_rounds n' conversation party other_message in
              (found_protocol, this :: later)
          | Raise e => (Raise e, [this])
          end
      | Some protocol =>
          let metadata := extract_metadata protocol in
          (Ok (Some (mkProtocol protocol [] metadata)), [this])
      end
  end.

Definition negotiate_protocol_for_task (max_rounds : nat)
    (task_schema : json) (party : Party) (additional_info : string)
    : result (option Protocol) * list round :=
  let task_schema := from_taskschemalike task_schema in
  let prompt :=
    TASK_NEGOTIATOR_PROMPT +:+ NL
      +:+ "The JSON schema of the task is the following:" +:+ NL +:+ NL
      +:+ str_task_schema task_schema in
  let prompt :=
    match additional_info with
    | EmptyString => prompt
    | _ => prompt +:+ NL +:+ NL +:+ additional_info
    end in
  let conversation := new_conversation prompt [] "negotiation" in
  let other_message := "Hello! How may I help you?" in
  negotiation_rounds max_rounds conversation party other_message.

End Negotiator.

(** ** sender/components/programmer.py *)

Definition NUDGE : string :=
  "You have not provided an implementation yet. Please provide one by surrounding it in the tags <IMPLEMENTATION> and </IMPLEMENTATION>.".

(** Lines 61-66: what is done to the extracted text. *)
Definition sanitize (implementation : string) : string :=
  let implementation := PyStr.strip implementation in
  let implementation :=
    PyStr.strip
      (PyStr.replace "```" "" (PyStr.replace "```python" "" implementation)) in
  PyStr.replace "def send_query(" "def run(" implementation.

Section Programmer.

Context {Conversation : Type}.
Variable new_conversation : string -> list Tool.t -> string -> Conversation.
Variable chat : Conversation -> string -> string * Conversation.
Variable extract_substring : string -> string -> string -> option string.
Variable json_dumps : option nat -> json -> string.
Variable TASK_PROGRAMMER_PROMPT : string.

(** [for _ in range(n)]. The local variable [implementation] is unbound
    before the first pass ([None]), and bound afterwards to what the
    extraction gave ([Some None] for Python's [None]). With it come the
    messages sent to the conversation. *)
Fixpoint attempts (n : nat) (conversation : Conversation) (message : string)
    (implementation : option (option string))
    : option (option string) * list string :=
  match n with
  | O => (implementation, [])
  | S n' =>
      let '(reply, conversation) := chat conversation message in
      let implementation :=
        extract_substring reply "<IMPLEMENTATION>" "</IMPLEMENTATION>" in
      match implementation with
      | Some _ => (Some implementation, [message])
      | None =>
          let '(final, later) :=
            attempts n' conversation NUDGE (Some implementation) in
          (final, message :: later)
      end
  end.

Definition SenderProgrammer_call (num_attempts : nat) (task_schema : json)
    (protocol_document : string) : result string * list string :=
  let conversation :=
    new_conversation TASK_PROGRAMMER_PROMPT [] "programming" in
  let message :=
    "JSON schema:" +:+ NL +:+ NL +:+ json_dumps None task_schema +:+ NL +:+ NL
      +:+ "Protocol document:" +:+ NL +:+ NL +:+ protocol_document in
  let '(implementation, sent) :=
    attempts num_attempts conversation message None in
  match implementation with
  | None => (Raise (UnboundLocalError "implementation"), sent)
  | Some None =>
      (Raise (AttributeError "'NoneType' object has no attribute 'strip'"),
       sent)
  | Some (Some implementation) => (Ok (sanitize implementation), sent)
  end.

End Programmer.

(** ** Agreement of renderings

    A rendering agrees with a parameter on a field when the field can be
    told from the rendering: changing the field alone changes what is
    rendered. *)

Definition with_name (n : string) (p : parameter) : parameter :=
  match p with
  | StringParameter _ d r => StringParameter n d r
  | EnumParameter _ d values r => EnumParameter n d values r
  | NumberParameter _ d r => NumberParameter n d r
  | ArrayParameter _ d r item_schema => ArrayParameter n d r item_schema
  end.

Definition with_description (d : string) (p : parameter) : parameter :=
  match p with
  | StringParameter n _ r => StringParameter n d r
  | EnumParameter n _ values r => EnumParameter n d values r
  | NumberParameter n _ r => NumberParameter n d r
  | ArrayParameter n _ r item_schema => ArrayParameter n d r item_schema
  end.

Definition with_required (r : bool) (p : parameter) : parameter :=
  match p with
  | StringParameter n d _ => StringParameter n d r
  | EnumParameter n d values _ => EnumParameter n d values r
  | NumberParameter n d _ => NumberParameter n d r
  | ArrayParameter n d _ item_schema => ArrayParameter n d r item_schema
  end.

Definition tells_name {A : Type} (render : parameter -> A) (p : parameter)
    : Prop :=
  forall n n', render (with_name n p) = render (with_name n' p) -> n = n'.

Definition tells_description {A : Type} (render : parameter -> A)
    (p : parameter) : Prop :=
  forall d d',
    render (with_description d p) = render (with_description d' p) -> d = d'.

Definition tells_required {A : Type} (render : parameter -> A)
    (p : parameter) : Prop :=
  render (with_required true p) <> render (with_required false p).

(** ** The contract of the other party

    A response holds a status; with the status "success" it holds a
    body, with any other status a message that says what failed. *)
Definition well_formed_response (response : gmap string string) : Prop :=
  exists status,
    response !! "status" = Some status
    /\ if String.eqb status "success"
       then is_Some (response !! "body")
       else is_Some (response !! "message").

(** ** The rounds of an exchange

    [exchanged conversation party other_message rounds party']: the
    rounds are those of an exchange that starts by sending
    [other_message] to [conversation], and [party'] is the state in
    which the party is when the last of them is made. Every round
    records the message sent, the reply that [chat] gives to it and the
    block that [extract_substring] finds in this reply. A round is
    followed by another one only when its reply holds no block; the next
    round then sends, to the next state of the conversation, the message
    made from what [callback] answers to the reply, and the party goes
    on from its next state. *)
Section Exchange.

Context {Conversation Party : Type}.
Variable chat : Conversation -> string -> string * Conversation.
Variable extract_substring : string -> string -> string -> option string.
Variable callback : Party -> string -> gmap string string * Party.

Fixpoint exchanged (conversation : Conversation) (party : Party)
    (other_message : string) (rounds : list round) (party' : Party) : Prop :=
  match rounds with
  | [] => party' = party
  | this :: later =>
      let '(message, conversation) := chat conversation other_message in
      this = {| outgoing := other_message; reply := message;
                extracted :=
                  extract_substring message "<FINALPROTOCOL>"
                    "</FINALPROTOCOL>" |}
      /\ match later with
         | [] => party' = party
         | _ :: _ =>
             let '(response, party) := callback party message in
             extracted this = None
             /\ exists other_message,
                  next_message response = Ok other_message
                  /\ exchanged conversation party other_message later party'
         end
  end.

End Exchange.

(** ** Concrete collaborators

    Small backends, parties and tools on which the statements below are
    instantiated. *)

(** A backend whose second reply holds the final protocol. The state of
    the conversation is the number of replies given. *)
Definition settling_chat (conversation : nat) (message : string)
    : string * nat :=
  (if conversation =? 1
   then "Agreed. <FINALPROTOCOL>one line in, one line out</FINALPROTOCOL>"
   else "Shall we exchange single lines of text?",
   S conversation).

(** A backend that never delimits anything. *)
Definition rambling_chat (conversation : nat) (message : string)
    : string * nat :=
  ("Let me think about it a little longer.", S conversation).

(** A backend that answers with a fenced implementation. *)
Definition coding_chat (conversation : nat) (message : string)
    : string * nat :=
  ("Here it is. <IMPLEMENTATION>```python
def send_query(task_data):
  return {}
```</IMPLEMENTATION>", S conversation).

(** A backend that fences its implementation with the short language
    tag. *)
Definition tagging_chat (conversation : nat) (message : string)
    : string * nat :=
  ("<IMPLEMENTATION>```py
def send_query(task_data):
  return {}
```</IMPLEMENTATION>", S conversation).

Definition agreeing_party (party : unit) (message : string)
    : gmap string string * unit :=
  ({[ "status" := "success"; "body" := "That suits me." ]}, party).

Definition unreachable_party (party : unit) (message : string)
    : gmap string string * unit :=
  ({[ "status" := "error"; "message" := "connection refused" ]}, party).

(** A tool whose function divides 10 by its first argument. *)
Definition dividing_tool : Tool.t :=
  {| Tool.name := "divide";
     Tool.description := "Divides 10 by the argument";
     Tool.parameters := [NumberParameter "by" "the divisor" true];
     Tool.function := fun args _ =>
       match args with
       | [JNum 0] =>
           Propagated {| is_Exception := true; str_of := "division by zero" |}
       | [JNum z] => Returned (JNum (10 / z))
       | _ =>
           Propagated {| is_Exception := true;
                         str_of := "unsupported operand" |}
       end;
     Tool.output_schema := None |}.

(** ** Code fences

    The number of backticks a text starts with: a fence marker is three
    of them. *)
Fixpoint ticks (s : string) : nat :=
  match s with
  | String c t => if Ascii.eqb c "`" then S (ticks t) else 0
  | EmptyString => 0
  end.

(** A party that reports success and gives no body. *)
Definition mute_party (party : unit) (message : string)
    : gmap string string * unit :=
  ({[ "status" := "success" ]}, party).

(** ** common/toolformers/camel.py

    The classes and functions of the [camel] library are outside the
    sources: what they compute is a parameter, and their failures are
    carried as [Foreign]. *)

Module Camel.

Definition QUOTE : string := String (ascii_of_nat 34) "".

Inductive error : Type :=
  | ValueError (msg : string)
  | TypeError (msg : string)
  | Foreign (e : raised).

Inductive result (A : Type) : Type :=
  | Ok (a : A)
  | Raise (e : error).
Arguments Ok {A} a.
Arguments Raise {A} e.

(** [ModelType.GPT_4O] and [ModelType.GPT_4O_MINI] *)
Inductive ModelType : Type :=
  | GPT_4O
  | GPT_4O_MINI.

Section Toolformer.

(** The tools as given, the list of [FunctionTool] made of them, and the
    dictionary of a [ChatGPTConfig]. *)
Context {ToolLike FormattedTools Config : Type}.

(** The values passed to the constructor. [OPENAI] is
    [ModelPlatformType.OPENAI]. *)
Inductive argument : Type :=
  | OPENAI
  | Model (m : ModelType)
  | ConfigDict (c : Config)
  | Text (s : string)
  | Tools (t : FormattedTools).

(** The attributes set by [CamelToolformer.__init__]; [None] in [_name]
    is Python's [None], the default of the parameter [name]. *)
Record CamelToolformer : Type := {
  model_platform : argument;
  model_type : argument;
  model_config_dict : argument;
  _name : option argument
}.

(** The parameters of [__init__] after [self]. *)
Definition init_parameters : list string :=
  ["model_platform"; "model_type"; "model_config_dict"; "name"].

(** The first keyword of a call that is no parameter of the function. *)
Fixpoint unexpected_keyword (parameters : list string)
    (keywords : list (string * argument)) : option string :=
  match keywords with
  | [] => None
  | (k, _) :: rest =>
      if bool_decide (k ∈ parameters) then unexpected_keyword parameters rest
      else Some k
  end.

Fixpoint keyword (k : string) (keywords : list (string * argument))
    : option argument :=
  match keywords with
  | [] => None
  | (k', v) :: rest => if String.eqb k' k then Some v else keyword k rest
  end.

(** A call [CamelToolformer(k1=v1, ...)] with keyword arguments only:
    Python binds the keywords to the parameters of [__init__], and
    raises TypeError for a keyword that is no parameter and for a
    parameter without default that is not given. *)
Definition CamelToolformer_new (keywords : list (string * argument))
    : result CamelToolformer :=
  match unexpected_keyword init_parameters keywords with
  | Some k =>
      Raise (TypeError
        ("CamelToolformer.__init__() got an unexpected keyword argument '"
           +:+ k +:+ "'"))
  | None =>
      match keyword "model_platform" keywords, keyword "model_type" keywords,
            keyword "model_config_dict" keywords with
      | Some model_platform, Some model_type, Some model_config_dict =>
          Ok {| model_platform := model_platform;
                model_type := model_type;
                model_config_dict := model_config_dict;
                _name := keyword "name" keywords |}
      | _, _, _ =>
          Raise (TypeError
            "CamelToolformer.__init__() missing required positional arguments")
      end
  end.

(** The property [name]; [value_of] is the attribute [value] of a member
    of the enumerations of the library. *)
Variable value_of : argument -> string.

Definition name (self : CamelToolformer) : argument :=
  match _name self with
  | None =>
      Text (value_of (model_platform self) +:+ "_"
              +:+ value_of (model_type self))
  | Some given => given
  end.

(** [[FunctionTool(tool.func, tool.openai_schema) for tool in tools]] and
    [ChatGPTConfig(temperature=0.2, tools=formatted_tools).as_dict()] *)
Variable function_tools : list ToolLike -> outcome FormattedTools.
Variable chat_gpt_config : FormattedTools -> outcome Config.

Definition make_openai_toolformer (model_type_internal system_prompt : string)
    (tools : list ToolLike) : result CamelToolformer :=
  match
    (if String.eqb model_type_internal "gpt-4o" then Ok GPT_4O
     else if String.eqb model_type_internal "gpt-4o-mini" then Ok GPT_4O_MINI
     else Raise (ValueError
            ("Model type must be either " +:+ QUOTE +:+ "gpt-4o" +:+ QUOTE
               +:+ " or " +:+ QUOTE +:+ "gpt-4o-mini" +:+ QUOTE +:+ ".")))
  with
  | Raise e => Raise e
  | Ok model_type =>
      match function_tools tools with
      | Propagated e => Raise (Foreign e)
      | Returned formatted_tools =>
          match chat_gpt_config formatted_tools with
          | Propagated e => Raise (Foreign e)
          | Returned config =>
              CamelToolformer_new
                [("model_platform", OPENAI);
                 ("model_type", Model model_type);
                 ("model_config_dict", ConfigDict config);
                 ("system_prompt", Text system_prompt);
                 ("tools", Tools formatted_tools);
                 ("name", Text model_type_internal)]
          end
      end
  end.

End Toolformer.

End Camel.

(** ** toolformers/base.py: the Gemini declaration of a tool *)

(** The keyword arguments with which [Tool.as_gemini_tool] makes the
    [CallableFunctionDeclaration] that it wraps in a [content_types.Tool]
    (both of the Gemini library); [None] in [declared_parameters] is
    Python's [None]. *)
Record FunctionDeclaration : Type := {
  declared_name : string;
  declared_description : string;
  declared_parameters : option (gmap string json);
  declared_function : list json -> gmap string json -> outcome json
}.

(** [{parameter.name: parameter.as_gemini_tool() for parameter in ...}] *)
Definition gemini_properties (ps : list parameter) : gmap string json :=
  foldl (fun m p => <[name p := JDict (as_gemini_tool p)]> m) ∅ ps.

Definition Tool_as_gemini_tool (self : Tool.t) : FunctionDeclaration :=
  let parameters :=
    match Tool.parameters self with
    | [] => None
    | ps =>
        Some {[ "type" := JStr "object";
                "properties" := JDict (gemini_properties ps);
                "required" := JList (Tool.required_names ps) ]}
    end in
  {| declared_name := Tool.name self;
     declared_description := Tool.description self;
     declared_parameters := parameters;
     declared_function := Tool.call_tool_for_toolformer self |}.

(** * Properties *)

(** ** Strings *)

Example lower_mixed :
  PyText.lower (PyText.of_string "Decision: YES")
  = PyText.of_string "decision: yes".
Proof. reflexivity. Qed.

Example lower_dotted :
  PyText.lower [PyText.Below256 "D"; PyText.U0130; PyText.Below256 "Z"]
  = [PyText.Below256 "d"; PyText.Below256 "i"; PyText.U0307;
     PyText.Below256 "z"].
Proof. reflexivity. Qed.

Example slice_short :
  PyText.slice_last 10 (PyText.of_string "abc") = PyText.of_string "abc".
Proof. reflexivity. Qed.

Example slice_long :
  PyText.slice_last 10 (PyText.of_string "0123456789abc")
  = PyText.of_string "3456789abc".
Proof. reflexivity. Qed.

Example strip_both : PyStr.strip "  a b
 " = "a b".
Proof. reflexivity. Qed.

Example replace_fence :
  PyStr.replace "```" "" "```python x ```` y" = "python x ` y".
Proof. reflexivity. Qed.

Example replace_empty : PyStr.replace "" "-" "abc" = "-a-b-c-".
Proof. reflexivity. Qed.

Example join_three : PyStr.join ", " ["a"; "b"; "c"] = "a, b, c".
Proof. reflexivity. Qed.

Example extract_block :
  extract_substring_model "So: <FINALPROTOCOL>ping</FINALPROTOCOL> done"
    "<FINALPROTOCOL>" "</FINALPROTOCOL>" = Some "ping".
Proof. reflexivity. Qed.

Example extract_unclosed :
  extract_substring_model "So: <FINALPROTOCOL>ping" "<FINALPROTOCOL>"
    "</FINALPROTOCOL>" = None.
Proof. reflexivity. Qed.

Example sanitize_fenced :
  sanitize "```python
def send_query(task_data):
  return send_to_server(task_data)
```" = "def run(task_data):
  return send_to_server(task_data)".
Proof. reflexivity. Qed.

Example enum_in_words :
  as_natural_language (fun _ _ => "")
    (EnumParameter "unit" "Unit of the result" ["metric"; "imperial"] true)
  = "unit (enum, required): Unit of the result. Possible values: metric, imperial".
Proof. reflexivity. Qed.

Example number_documented :
  as_documented_python (fun _ _ => "")
    (NumberParameter "by" "the divisor" true)
  = "by (number): the divisor".
Proof. reflexivity. Qed.

Example tool_documented :
  Tool.as_documented_python (fun _ _ => "") dividing_tool
  = "Tool divide:

Divides 10 by the argument
Parameters:
" +:+ TAB +:+ "by (number): the divisor
".
Proof. reflexivity. Qed.

Example tool_required_names :
  Tool.as_openai_info dividing_tool !! "function"
  = Some (JDict
      {[ "name" := JStr "divide";
         "description" := JStr "Divides 10 by the argument";
         "parameters" := JDict
           {[ "type" := JStr "object";
              "properties" := JDict
                {[ "by" := JDict {[ "type" := JStr "number";
                                    "description" := JStr "the divisor" ]} ]};
              "required" := JList [JStr "by"] ]} ]}).
Proof. reflexivity. Qed.

#[local] Arguments String.append : simpl nomatch.

Section StringFacts.

Lemma sapp_nil_r (s : string) : s +:+ "" = s.
Proof. induction s as [|c s IH]; simpl; [reflexivity | now rewrite IH]. Qed.

Lemma sapp_assoc (a b c : string) : (a +:+ b) +:+ c = a +:+ (b +:+ c).
Proof. induction a as [|x a IH]; simpl; [reflexivity | now rewrite IH]. Qed.

Lemma length_sapp (a b : string) :
  String.length (a +:+ b) = String.length a + String.length b.
Proof. induction a as [|x a IH]; simpl; [reflexivity | now rewrite IH]. Qed.

Lemma sapp_inv_head (a b c : string) : a +:+ b = a +:+ c -> b = c.
Proof. induction a as [|x a IH]; simpl; intros H; [exact H | inversion H; auto]. Qed.

Lemma sapp_same_length (a a' b b' : string) :
  String.length a = String.length a' ->
  a +:+ b = a' +:+ b' -> a = a' /\ b = b'.
Proof.
  revert a'. induction a as [|x a IH]; intros [|x' a'] Hlen H;
    simpl in *; try discriminate.
  - split; [reflexivity | exact H].
  - injection H as -> H. injection Hlen as Hlen.
    destruct (IH a' Hlen H) as [-> ->]. split; reflexivity.
Qed.

Lemma sapp_inv_tail (a a' b : string) : a +:+ b = a' +:+ b -> a = a'.
Proof.
  intros H. apply (sapp_same_length a a' b b); [|exact H].
  apply (f_equal String.length) in H. rewrite !length_sapp in H. lia.
Qed.

Lemma prefix_spec (p s : string) :
  String.prefix p s = true <-> exists rest, s = p +:+ rest.
Proof.
  revert s. induction p as [|a p IH]; intros s; simpl.
  - destruct s; split; eauto.
  - destruct s as [|b s]; simpl.
    + split; [discriminate | intros [r Hr]; discriminate].
    + destruct (ascii_dec a b) as [->|Hne].
      * rewrite IH. split; intros [r Hr]; exists r.
        -- now rewrite Hr.
        -- now injection Hr.
      * split; [discriminate | intros [r Hr]; injection Hr as Hab _; congruence].
Qed.

Lemma prefix_sapp (p rest : string) : String.prefix p (p +:+ rest) = true.
Proof. apply prefix_spec. now exists rest. Qed.

(** [sub in s] holds exactly when [s] splits around a copy of [sub]. *)
Lemma contains_spec (sub s : string) :
  PyStr.contains sub s = true <->
  exists before after, s = before +:+ sub +:+ after.
Proof.
  induction s as [|c s IH].
  - cbn [PyStr.contains]. rewrite orb_false_r, prefix_spec. split.
    + intros [r Hr]. now exists "", r.
    + intros [b [a H]]. destruct b; simpl in H; [eauto | discriminate].
  - cbn [PyStr.contains]. rewrite orb_true_iff, prefix_spec, IH. split.
    + intros [[r Hr] | [b [a H]]].
      * now exists "", r.
      * exists (String c b), a. simpl. now rewrite H.
    + intros [[|x b] [a H]]; simpl in H.
      * left. now exists a.
      * right. injection H as _ H. now exists b, a.
Qed.

Lemma contains_sapp (sub before after : string) :
  PyStr.contains sub (before +:+ sub +:+ after) = true.
Proof. apply contains_spec. now exists before, after. Qed.

(** Folding case never turns whitespace into something else, or back. *)
Lemma isspace_lower_char (c : ascii) :
  PyStr.isspace (PyStr.lower_char c) = PyStr.isspace c.
Proof. destruct c as [[] [] [] [] [] [] [] []]; reflexivity. Qed.

End StringFacts.

Section TrimFacts.

Lemma length_lstrip (s : string) :
  String.length (PyStr.lstrip s) <= String.length s.
Proof.
  induction s as [|c s IH]; simpl; [lia|].
  destruct (PyStr.isspace c); simpl; lia.
Qed.

Lemma lstrip_fixed (c : ascii) (t : string) :
  PyStr.lstrip (String c t) = String c t -> PyStr.isspace c = false.
Proof.
  simpl. destruct (PyStr.isspace c); [|reflexivity].
  intros H. apply (f_equal String.length) in H. simpl in H.
  pose proof (length_lstrip t). lia.
Qed.

Lemma lstrip_sapp (a : string) (c : ascii) (t : string) :
  PyStr.isspace c = false ->
  exists a', PyStr.lstrip (a +:+ String c t) = a' +:+ String c t.
Proof.
  intros Hc. induction a as [|x a [a' IH]]; simpl.
  - exists "". now rewrite Hc.
  - destruct (PyStr.isspace x).
    + now exists a'.
    + now exists (String x a).
Qed.

Lemma rstrip_sapp (a b : string) :
  PyStr.rstrip b = b -> b <> "" -> PyStr.rstrip (a +:+ b) = a +:+ b.
Proof.
  intros Hb Hne. induction a as [|x a IH]; simpl; [exact Hb|].
  rewrite IH. destruct (a +:+ b) eqn:E; [|reflexivity].
  destruct a; simpl in E; [congruence | discriminate].
Qed.

Lemma drop_sapp (a b : string) : PyStr.drop (String.length a) (a +:+ b) = b.
Proof. induction a as [|x a IH]; simpl; [now destruct b | exact IH]. Qed.

End TrimFacts.

(** ** Texts over the wider alphabet *)

Section ReplyFacts.

#[local] Open Scope list_scope.

Implicit Types (t a b : list PyText.code_point) (c : PyText.code_point).

Lemma eqb_spec c c' : PyText.eqb c c' = true <-> c = c'.
Proof.
  destruct c as [x| |], c' as [y| |]; simpl; split; intros H;
    try reflexivity; try discriminate H.
  - apply Ascii.eqb_eq in H. now subst.
  - injection H as ->. apply Ascii.eqb_refl.
Qed.

Lemma text_prefix_spec (p t : list PyText.code_point) :
  PyText.prefix p t = true <-> exists rest, t = p ++ rest.
Proof.
  revert t. induction p as [|x p IH]; intros t; simpl.
  - split; eauto.
  - destruct t as [|y t].
    + split; [discriminate | intros [r Hr]; discriminate].
    + rewrite andb_true_iff, eqb_spec, IH. split.
      * intros [-> [r ->]]. now exists r.
      * intros [r Hr]. injection Hr as -> ->. eauto.
Qed.

(** [sub in t] holds exactly when [t] splits around a copy of [sub]. *)
Lemma text_contains_spec (sub t : list PyText.code_point) :
  PyText.contains sub t = true <->
  exists before after, t = before ++ sub ++ after.
Proof.
  induction t as [|c t IH]; cbn [PyText.contains].
  - rewrite orb_false_r, text_prefix_spec. split.
    + intros [r Hr]. now exists [], r.
    + intros [b [a H]]. destruct b; simpl in H; [eauto | discriminate].
  - rewrite orb_true_iff, text_prefix_spec, IH. split.
    + intros [[r Hr] | [b [a H]]].
      * now exists [], r.
      * exists (c :: b), a. simpl. now rewrite H.
    + intros [[|x b] [a H]]; simpl in H.
      * left. now exists a.
      * right. injection H as _ H. now exists b, a.
Qed.

Lemma lower_app a b : PyText.lower (a ++ b) = PyText.lower a ++ PyText.lower b.
Proof.
  induction a as [|c a IH]; simpl; [reflexivity|].
  now rewrite IH, app_assoc.
Qed.

(** Folding case never turns whitespace into something else, or back;
    it leaves whitespace as it is, and gives at least one code point. *)
Lemma lower_point_head c :
  exists x rest,
    PyText.lower_point c = x :: rest /\ PyText.isspace x = PyText.isspace c.
Proof.
  destruct c as [x| |]; simpl; eauto. eexists _, _. split; [reflexivity|].
  apply isspace_lower_char.
Qed.

Lemma lower_nil_inv t : PyText.lower t = [] -> t = [].
Proof.
  destruct t as [|c t]; [reflexivity|]. simpl.
  destruct (lower_point_head c) as (x & rest & -> & _). discriminate.
Qed.

(** *** Trimming *)

Lemma text_rstrip_nonspace c t :
  PyText.isspace c = false -> PyText.rstrip (c :: t) = c :: PyText.rstrip t.
Proof. simpl. intros ->. now destruct (PyText.rstrip t). Qed.

Lemma lower_lstrip t :
  PyText.lstrip (PyText.lower t) = PyText.lower (PyText.lstrip t).
Proof.
  induction t as [|c t IH]; [reflexivity|].
  destruct c as [x| |]; try reflexivity.
  cbn [PyText.lower PyText.lower_point PyText.lstrip PyText.isspace app].
  rewrite isspace_lower_char. now destruct (PyStr.isspace x).
Qed.

Lemma lower_rstrip t :
  PyText.rstrip (PyText.lower t) = PyText.lower (PyText.rstrip t).
Proof.
  induction t as [|c t IH]; [reflexivity|]. destruct c as [x| |].
  - cbn [PyText.lower PyText.lower_point PyText.rstrip app]. rewrite IH.
    destruct (PyText.rstrip t) as [|y r] eqn:E.
    + cbn [PyText.lower PyText.isspace]. rewrite isspace_lower_char.
      now destruct (PyStr.isspace x).
    + cbn [PyText.lower PyText.lower_point app].
      destruct (PyText.lower_point y ++ PyText.lower r) eqn:E';
        [|reflexivity].
      apply (lower_nil_inv (y :: r)) in E'. discriminate.
  - cbn [PyText.lower PyText.lower_point app].
    rewrite !text_rstrip_nonspace by reflexivity. now rewrite IH.
  - cbn [PyText.lower PyText.lower_point app].
    rewrite !text_rstrip_nonspace by reflexivity. now rewrite IH.
Qed.

Lemma lower_strip t :
  PyText.strip (PyText.lower t) = PyText.lower (PyText.strip t).
Proof. unfold PyText.strip. now rewrite lower_rstrip, lower_lstrip. Qed.

Lemma text_lstrip_in c t : In c (PyText.lstrip t) -> In c t.
Proof.
  induction t as [|x t IH]; [auto|]. simpl.
  destruct (PyText.isspace x); [auto|]. now intros H.
Qed.

Lemma text_rstrip_in c t : In c (PyText.rstrip t) -> In c t.
Proof.
  induction t as [|x t IH]; [auto|]. simpl.
  destruct (PyText.rstrip t) as [|y r].
  - destruct (PyText.isspace x); simpl; tauto.
  - simpl in *. tauto.
Qed.

Lemma text_strip_in c t : In c (PyText.strip t) -> In c t.
Proof. intros H. now apply text_rstrip_in, text_lstrip_in. Qed.

Lemma skipn_in {A : Type} (n : nat) (x : A) (l : list A) :
  In x (skipn n l) -> In x l.
Proof.
  revert l. induction n as [|n IH]; intros [|y l]; simpl; auto.
Qed.

Lemma text_slice_last_in n c t : In c (PyText.slice_last n t) -> In c t.
Proof. apply skipn_in. Qed.

Lemma text_length_lstrip t : length (PyText.lstrip t) <= length t.
Proof.
  induction t as [|c t IH]; simpl; [lia|].
  destruct (PyText.isspace c); simpl; lia.
Qed.

Lemma text_lstrip_fixed c t :
  PyText.lstrip (c :: t) = c :: t -> PyText.isspace c = false.
Proof.
  simpl. destruct (PyText.isspace c); [|reflexivity].
  intros H. apply (f_equal (@length _)) in H. simpl in H.
  pose proof (text_length_lstrip t). lia.
Qed.

Lemma text_lstrip_app a c t :
  PyText.isspace c = false ->
  exists a', PyText.lstrip (a ++ c :: t) = a' ++ c :: t.
Proof.
  intros Hc. induction a as [|x a [a' IH]]; simpl.
  - exists []. now rewrite Hc.
  - destruct (PyText.isspace x).
    + now exists a'.
    + now exists (x :: a).
Qed.

Lemma text_rstrip_app_gen a b :
  PyText.rstrip (a ++ b)
  = match PyText.rstrip b with
    | [] => PyText.rstrip a
    | r => a ++ r
    end.
Proof.
  induction a as [|c a IH]; simpl.
  - now destruct (PyText.rstrip b).
  - rewrite IH. destruct (PyText.rstrip b) as [|x r]; [reflexivity|].
    now destruct a.
Qed.

Lemma text_rstrip_app a b :
  PyText.rstrip b = b -> b <> [] -> PyText.rstrip (a ++ b) = a ++ b.
Proof.
  intros Hb Hne. rewrite text_rstrip_app_gen, Hb. now destruct b.
Qed.

Lemma text_lstrip_blank_head c t :
  PyText.lstrip (c :: t) = [] ->
  PyText.isspace c = true /\ PyText.lstrip t = [].
Proof. simpl. destruct (PyText.isspace c); [auto | discriminate]. Qed.

Lemma text_lstrip_blank_app a b :
  PyText.lstrip a = [] -> PyText.lstrip (a ++ b) = PyText.lstrip b.
Proof.
  induction a as [|c a IH]; intros H; [reflexivity|].
  apply text_lstrip_blank_head in H as [Hc Ha]. simpl. rewrite Hc. auto.
Qed.

Lemma text_rstrip_blank a : PyText.lstrip a = [] -> PyText.rstrip a = [].
Proof.
  induction a as [|c a IH]; intros H; [reflexivity|].
  apply text_lstrip_blank_head in H as [Hc Ha]. simpl.
  now rewrite (IH Ha), Hc.
Qed.

(** Whitespace around a text does not change what [strip] gives. *)
Lemma text_strip_padded (w1 t w2 : list PyText.code_point) :
  PyText.lstrip w1 = [] -> PyText.lstrip w2 = [] ->
  PyText.strip (w1 ++ t ++ w2) = PyText.strip t.
Proof.
  intros H1 H2. unfold PyText.strip.
  rewrite text_rstrip_app_gen, (text_rstrip_app_gen t w2),
    (text_rstrip_blank w2 H2).
  destruct (PyText.rstrip t) as [|c r].
  - now rewrite (text_rstrip_blank w1 H1).
  - now apply text_lstrip_blank_app.
Qed.

(** *** The last code points *)

Lemma text_slice_last_app (n : nat) a (tail : list PyText.code_point) :
  length tail = n -> PyText.slice_last n (a ++ tail) = tail.
Proof.
  intros <-. unfold PyText.slice_last. rewrite length_app.
  replace (length a + length tail - length tail) with (length a) by lia.
  induction a as [|c a IH]; simpl; [now destruct tail | exact IH].
Qed.

(** When a text ends in ten code points that start and end with
    something other than whitespace, these ten are its window. *)
Lemma text_window_is_tail a (tail : list PyText.code_point) :
  length tail = 10 ->
  PyText.lstrip tail = tail -> PyText.rstrip tail = tail ->
  PyText.slice_last 10 (PyText.strip (a ++ tail)) = tail.
Proof.
  intros Hlen Hl Hr. destruct tail as [|c t]; [discriminate|].
  unfold PyText.strip. rewrite text_rstrip_app by (auto; discriminate).
  destruct (text_lstrip_app a c t (text_lstrip_fixed c t Hl)) as [a' ->].
  now apply text_slice_last_app.
Qed.

(** *** Texts without U+0130: folding keeps every position *)

Lemma length_lower t :
  ~ In PyText.U0130 t -> length (PyText.lower t) = length t.
Proof.
  induction t as [|c t IH]; intros H; [reflexivity|].
  simpl in H. destruct c as [x| |]; simpl; try tauto;
    rewrite IH; tauto.
Qed.

Lemma lower_skipn (n : nat) t :
  ~ In PyText.U0130 t ->
  skipn n (PyText.lower t) = PyText.lower (skipn n t).
Proof.
  revert n. induction t as [|c t IH]; intros [|n] H; try reflexivity.
  simpl in H. destruct c as [x| |]; simpl; try tauto; apply IH; tauto.
Qed.

Lemma lower_slice_last (n : nat) t :
  ~ In PyText.U0130 t ->
  PyText.slice_last n (PyText.lower t) = PyText.lower (PyText.slice_last n t).
Proof.
  intros H. unfold PyText.slice_last.
  now rewrite length_lower, lower_skipn.
Qed.

Lemma lower_app_inv t (x y : list PyText.code_point) :
  ~ In PyText.U0130 t ->
  PyText.lower t = x ++ y ->
  exists t1 t2, t = t1 ++ t2 /\ PyText.lower t1 = x /\ PyText.lower t2 = y.
Proof.
  revert t. induction x as [|c x IH]; intros t Hfree H.
  - now exists [], t.
  - destruct t as [|d t]; [discriminate|]. simpl in Hfree.
    assert (Hd : exists d', PyText.lower_point d = [d']).
    { destruct d; simpl; eauto. tauto. }
    destruct Hd as [d' Hd]. simpl in H. rewrite Hd in H.
    injection H as <- H.
    destruct (IH t (fun F => Hfree (or_intror F)) H)
      as (t1 & t2 & -> & H1 & H2).
    exists (d :: t1), t2. simpl. now rewrite Hd, H1.
Qed.

Lemma lower_char_is_y (x : ascii) :
  PyStr.lower_char x = "y"%char <-> x = "y"%char \/ x = "Y"%char.
Proof.
  split.
  - destruct x as [[] [] [] [] [] [] [] []]; vm_compute; intros H;
      first [discriminate H | now left | now right].
  - now intros [-> | ->].
Qed.

Lemma lower_char_is_e (x : ascii) :
  PyStr.lower_char x = "e"%char <-> x = "e"%char \/ x = "E"%char.
Proof.
  split.
  - destruct x as [[] [] [] [] [] [] [] []]; vm_compute; intros H;
      first [discriminate H | now left | now right].
  - now intros [-> | ->].
Qed.

Lemma lower_char_is_s (x : ascii) :
  PyStr.lower_char x = "s"%char <-> x = "s"%char \/ x = "S"%char.
Proof.
  split.
  - destruct x as [[] [] [] [] [] [] [] []]; vm_compute; intros H;
      first [discriminate H | now left | now right].
  - now intros [-> | ->].
Qed.

(** A code point folds to a small letter exactly when it is that letter
    in one of its two cases. *)
Lemma lower_point_is (small capital : ascii) c rest :
  (forall x, PyStr.lower_char x = small <-> x = small \/ x = capital) ->
  PyText.lower_point c = PyText.Below256 small :: rest ->
  c <> PyText.U0130 ->
  either_case small capital c.
Proof.
  intros Hchar H Hc. destruct c as [x| |]; simpl in H.
  - injection H as H _. apply Hchar in H as [-> | ->]; [now left | now right].
  - congruence.
  - discriminate.
Qed.

Lemma either_case_lower (small capital : ascii) c :
  (forall x, PyStr.lower_char x = small <-> x = small \/ x = capital) ->
  either_case small capital c ->
  PyText.lower_point c = [PyText.Below256 small].
Proof.
  intros Hchar [-> | ->]; simpl; f_equal; f_equal; apply Hchar; auto.
Qed.

Lemma lower_cons_inv t (x : PyText.code_point)
    (rest : list PyText.code_point) :
  ~ In PyText.U0130 t ->
  PyText.lower t = x :: rest ->
  exists c t',
    t = c :: t' /\ c <> PyText.U0130 /\ PyText.lower_point c = [x]
    /\ PyText.lower t' = rest /\ ~ In PyText.U0130 t'.
Proof.
  intros Hfree H. destruct t as [|c t']; [discriminate|].
  simpl in Hfree. exists c, t'.
  destruct c as [z| |]; simpl in H; try tauto; injection H as <- <-;
    repeat split; try tauto; discriminate.
Qed.

(** "yes" occurs in the folded text exactly when it occurs in the text
    in some mixture of cases. *)
Lemma contains_yes_lower t :
  ~ In PyText.U0130 t ->
  PyText.contains (PyText.of_string "yes") (PyText.lower t) = true
  <-> yes_occurs_ignoring_case t.
Proof.
  intros Hfree. rewrite text_contains_spec.
  unfold yes_occurs_ignoring_case. split.
  - intros (b & a & H).
    destruct (lower_app_inv _ _ _ Hfree H) as (t1 & t2 & -> & _ & H2).
    assert (Hfree2 : ~ In PyText.U0130 t2).
    { intros F. apply Hfree, in_or_app. now right. }
    simpl in H2.
    destruct (lower_cons_inv _ _ _ Hfree2 H2)
      as (y & t3 & -> & Hy & Hy' & H3 & Hfree3).
    destruct (lower_cons_inv _ _ _ Hfree3 H3)
      as (e & t4 & -> & He & He' & H4 & Hfree4).
    destruct (lower_cons_inv _ _ _ Hfree4 H4)
      as (s & t5 & -> & Hs & Hs' & _ & _).
    exists t1, y, e, s, t5. split; [reflexivity|]. split; [|split].
    + exact (lower_point_is _ _ _ _ lower_char_is_y Hy' Hy).
    + exact (lower_point_is _ _ _ _ lower_char_is_e He' He).
    + exact (lower_point_is _ _ _ _ lower_char_is_s Hs' Hs).
  - intros (b & y & e & s & a & -> & Hy & He & Hs).
    exists (PyText.lower b), (PyText.lower a). rewrite lower_app.
    cbn [PyText.lower].
    rewrite (either_case_lower _ _ _ lower_char_is_y Hy),
      (either_case_lower _ _ _ lower_char_is_e He),
      (either_case_lower _ _ _ lower_char_is_s Hs).
    reflexivity.
Qed.

End ReplyFacts.

(** ** The feasibility check *)

Section ProtocolCheckerFacts.

#[local] Open Scope list_scope.

Context {Conversation : Type}.
Variable new_conversation : string -> list Tool.t -> string -> Conversation.
Variable chat :
  Conversation -> string -> list PyText.code_point * Conversation.
Variable json_dumps : option nat -> json -> string.
Variable CHECKER_TOOL_PROMPT : string.

(** The check and its reply, with the backend of this section. *)
#[local] Abbreviation reply_of :=
  (checker_reply new_conversation chat json_dumps CHECKER_TOOL_PROMPT).
#[local] Abbreviation ReceiverProtocolChecker :=
  (ReceiverProtocolChecker_call new_conversation chat json_dumps
     CHECKER_TOOL_PROMPT).

Lemma check_iff_spec (protocol_document : string) (tools : list Tool.t) :
  ~ In PyText.U0130 (reply_of protocol_document tools) ->
  ReceiverProtocolChecker protocol_document tools = true
  <-> spec_feasible (reply_of protocol_document tools).
Proof.
  intros Hfree. unfold ReceiverProtocolChecker_call, spec_feasible.
  rewrite lower_strip, lower_slice_last, contains_yes_lower; [reflexivity| |].
  - intros H. now apply text_slice_last_in, text_strip_in in H.
  - intros H. now apply text_strip_in in H.
Qed.

Lemma check_tail (protocol_document : string) (tools : list Tool.t)
    (body tail : list PyText.code_point) :
  reply_of protocol_document tools = body ++ tail ->
  length (PyText.lower tail) = 10 ->
  PyText.lstrip tail = tail -> PyText.rstrip tail = tail ->
  ReceiverProtocolChecker protocol_document tools
  = PyText.contains (PyText.of_string "yes") (PyText.lower tail).
Proof.
  intros Hreply Hlen Hl Hr. unfold ReceiverProtocolChecker_call.
  rewrite Hreply, lower_app, text_window_is_tail; [reflexivity | exact Hlen | |].
  - now rewrite lower_lstrip, Hl.
  - now rewrite lower_rstrip, Hr.
Qed.

(** C1, as the code has it. Whatever the backend replies, the
    feasibility check answers true exactly when "yes" occurs within the
    last 10 code points of the reply folded to lower case and then
    trimmed. When the reply holds no U+0130, the one code point that
    grows when folded, this is the rule of the specification: "yes", in
    any mixture of cases, occurs within the last 10 characters of the
    trimmed reply. A reply that ends in "decision: YES" gives true; one
    that ends in "decision: NO" gives false; and when the last 10 code
    points (without U+0130, starting and ending with something other
    than whitespace) hold no "yes", the answer is false whatever stands
    before them, a "yes" included. *)
Theorem feasibility_decides_on_the_folded_reply :
  (forall protocol_document tools,
      ReceiverProtocolChecker protocol_document tools = true
      <-> exists before after,
            PyText.slice_last 10
              (PyText.strip
                 (PyText.lower (reply_of protocol_document tools)))
            = before ++ PyText.of_string "yes" ++ after)
  /\ (forall protocol_document tools,
         ~ In PyText.U0130 (reply_of protocol_document tools) ->
         (ReceiverProtocolChecker protocol_document tools = true
          <-> spec_feasible (reply_of protocol_document tools)))
  /\ (forall protocol_document tools body,
         reply_of protocol_document tools
         = body ++ PyText.of_string "decision: YES" ->
         ReceiverProtocolChecker protocol_document tools = true)
  /\ (forall protocol_document tools body,
         reply_of protocol_document tools
         = body ++ PyText.of_string "decision: NO" ->
         ReceiverProtocolChecker protocol_document tools = false)
  /\ (forall protocol_document tools body tail,
         reply_of protocol_document tools = body ++ tail ->
         length tail = 10 -> ~ In PyText.U0130 tail ->
         PyText.lstrip tail = tail -> PyText.rstrip tail = tail ->
         ~ yes_occurs_ignoring_case tail ->
         ReceiverProtocolChecker protocol_document tools = false).
Proof.
  split; [|split; [exact check_iff_spec|split; [|split]]].
  - intros doc tools. unfold ReceiverProtocolChecker_call.
    apply text_contains_spec.
  - intros doc tools body H.
    rewrite (check_tail doc tools (body ++ PyText.of_string "dec")
               (PyText.of_string "ision: YES"));
      try reflexivity.
    now rewrite H, <- app_assoc.
  - intros doc tools body H.
    rewrite (check_tail doc tools (body ++ PyText.of_string "de")
               (PyText.of_string "cision: NO"));
      try reflexivity.
    now rewrite H, <- app_assoc.
  - intros doc tools body tail H Hlen Hfree Hl Hr Hno.
    rewrite (check_tail doc tools body tail H); try assumption.
    + destruct (PyText.contains _ (PyText.lower tail)) eqn:E; [|reflexivity].
      now apply contains_yes_lower in E.
    + now rewrite length_lower.
Qed.

End ProtocolCheckerFacts.

(** The rule of the specification fails on [dotted_reply]: its ten code
    points, which trimming leaves as they are, begin with "YES", and the
    check answers false, for the seven U+0130 fold to fourteen code
    points and push the "yes" out of the last ten. *)
Lemma feasibility_rule_counterexample :
  checker_reply (fun _ _ _ => tt) dotted_chat (fun _ _ => "") "" "protocol" []
  = dotted_reply
  /\ length dotted_reply = 10
  /\ PyText.strip dotted_reply = dotted_reply
  /\ spec_feasible dotted_reply
  /\ ReceiverProtocolChecker_call (fun _ _ _ => tt) dotted_chat
       (fun _ _ => "") "" "protocol" []
     = false.
Proof.
  split; [reflexivity|]. split; [reflexivity|]. split; [reflexivity|].
  split; [|reflexivity].
  exists [], (PyText.Below256 "Y"), (PyText.Below256 "E"),
    (PyText.Below256 "S"), (repeat PyText.U0130 7).
  split; [reflexivity|]. unfold either_case. auto.
Qed.

Lemma feasibility_decides_on_the_folded_reply_witness :
  ReceiverProtocolChecker_call (fun _ _ _ => tt)
    (fun c _ =>
       (PyText.of_string "The tools cover it. Final decision: YES", c))
    (fun _ _ => "") "" "protocol" []
  = true.
Proof.
  apply (proj1 (proj2 (proj2
           (feasibility_decides_on_the_folded_reply (fun _ _ _ => tt)
              (fun c _ =>
                 (PyText.of_string "The tools cover it. Final decision: YES",
                  c))
              (fun _ _ => "") ""))) "protocol" []
           (PyText.of_string "The tools cover it. Final ")).
  reflexivity.
Defined.

(** A backend whose reply affirms early and declines at the end. *)
Example yes_only_in_the_body :
  ReceiverProtocolChecker_call
    (fun _ _ _ => tt)
    (fun c _ =>
       (PyText.of_string
          "Yes, the tools cover parsing. They cannot send a reply. NO", c))
    (fun _ _ => "") "" "protocol" []
  = false.
Proof. reflexivity. Qed.

(** ** Parameters: the standard schema and the OpenAI schema *)

Section SchemaFacts.

Lemma as_strs_of_strings (key : string) (values : list string) :
  as_strs key (JStr <$> values) = Ok values.
Proof.
  induction values as [|v values IH]; [reflexivity|].
  cbn [fmap list_fmap as_strs as_str bind].
  change (list_fmap string json JStr values) with (JStr <$> values).
  now rewrite IH.
Qed.

Lemma string_round_trip (n d : string) (r : bool) :
  from_standard_api StringParameterClass
    (as_standard_api (StringParameter n d r))
  = Ok (StringParameter n d r).
Proof. reflexivity. Qed.

Lemma enum_round_trip (n d : string) (values : list string) (r : bool) :
  from_standard_api EnumParameterClass
    (as_standard_api (EnumParameter n d values r))
  = Ok (EnumParameter n d values r).
Proof.
  change (from_standard_api EnumParameterClass
            (as_standard_api (EnumParameter n d values r)))
    with (let* values := as_strs "values" (JStr <$> values) in
          Ok (EnumParameter n d values r)).
  now rewrite as_strs_of_strings.
Qed.

(** C2. For the String and the Enum variant, [from_standard_api] gives
    back the parameter it is given the standard schema of, so rendering
    again gives the same schema. [NumberParameter] and [ArrayParameter]
    have no [from_standard_api]: on every instance of these two the
    call raises [AttributeError], and no parameter comes back. *)
Theorem standard_round_trip_only_string_enum :
  (forall n d r,
      from_standard_api StringParameterClass
        (as_standard_api (StringParameter n d r))
      = Ok (StringParameter n d r))
  /\ (forall n d values r,
         from_standard_api EnumParameterClass
           (as_standard_api (EnumParameter n d values r))
         = Ok (EnumParameter n d values r))
  /\ (forall n d r,
         from_standard_api NumberParameterClass
           (as_standard_api (NumberParameter n d r))
         = Raise (AttributeError
             "type object 'NumberParameter' has no attribute 'from_standard_api'"))
  /\ (forall n d r item_schema,
         from_standard_api ArrayParameterClass
           (as_standard_api (ArrayParameter n d r item_schema))
         = Raise (AttributeError
             "type object 'ArrayParameter' has no attribute 'from_standard_api'")).
Proof.
  split; [exact string_round_trip|]. split; [exact enum_round_trip|].
  split; reflexivity.
Qed.

(** C10. The OpenAI rendering of an Enum parameter says type "string",
    keeps the allowed values under "values" and has no key "enum".
    Reading it back with [parameter_from_openai_api] therefore gives a
    StringParameter; the result is the same whatever the allowed values
    were, and its own OpenAI rendering has no "values" entry, so it
    differs from the rendering read. *)
Theorem openai_enum_not_round_trippable :
  forall (n d : string) (values : list string) (r : bool)
         (parameter_name : string) (required : bool),
    let rendering := as_openai_info (EnumParameter n d values r) in
    let back := StringParameter parameter_name d required in
    rendering !! "type" = Some (JStr "string")
    /\ rendering !! "values" = Some (JList (JStr <$> values))
    /\ rendering !! "enum" = None
    /\ parameter_from_openai_api parameter_name rendering required = Ok back
    /\ class_of back = StringParameterClass
    /\ (forall values',
           parameter_from_openai_api parameter_name
             (as_openai_info (EnumParameter n d values' r)) required
           = Ok back)
    /\ as_openai_info back !! "values" = None
    /\ as_openai_info back <> rendering.
Proof.
  intros n d values r parameter_name required rendering back.
  repeat split.
  intros H. apply (f_equal (fun m : gmap string json => m !! "values")) in H.
  discriminate H.
Qed.

(** The Gemini rendering of an Enum parameter, which keeps the allowed
    values under "enum", is read back as the Enum parameter. *)
Lemma gemini_enum_reads_back (n d : string) (values : list string)
    (r : bool) :
  parameter_from_openai_api n (as_gemini_tool (EnumParameter n d values r)) r
  = Ok (EnumParameter n d values r).
Proof.
  change (parameter_from_openai_api n
            (as_gemini_tool (EnumParameter n d values r)) r)
    with (let* values := as_strs "enum" (JStr <$> values) in
          Ok (EnumParameter n d values r)).
  now rewrite as_strs_of_strings.
Qed.

(** What the claim on reconstruction by type fails on: a schema whose
    type is "enum" is refused, although "enum" is one of the four types;
    a schema with a type outside the four is accepted as an Enum when it
    has the key "enum". *)
Lemma reconstruction_by_type_counterexample :
  parameter_from_openai_api "colour"
    {[ "type" := JStr "enum"; "description" := JStr "a colour" ]} true
  = Raise (ValueError "Unknown parameter type: " (JStr "enum"))
  /\ parameter_from_openai_api "colour"
       {[ "type" := JStr "integer"; "description" := JStr "a colour";
          "enum" := JList [JStr "red"; JStr "green"] ]} true
     = Ok (EnumParameter "colour" "a colour" ["red"; "green"] true).
Proof. split; reflexivity. Qed.

Lemma has_key_true {V : Type} (d : gmap string V) (key : string) (v : V) :
  d !! key = Some v -> has_key d key = true.
Proof. unfold has_key. now intros ->. Qed.

Lemma has_key_false {V : Type} (d : gmap string V) (key : string) :
  d !! key = None -> has_key d key = false.
Proof. unfold has_key. now intros ->. Qed.

Lemma getitem_some {V : Type} (d : gmap string V) (key : string) (v : V) :
  d !! key = Some v -> getitem d key = Ok v.
Proof. unfold getitem. now intros ->. Qed.

(** C7, as the code has it. A schema with the key "enum" is read as an
    Enum parameter whatever its type says. Without that key, the types
    "string", "number" and "array" give the variant of that name, and
    any other type, "enum" included, is refused with the ValueError
    "Unknown parameter type". The schema is one with a textual
    description (and, where read, a list of texts under "enum" and an
    entry "items"). *)
Theorem reconstruction_by_enum_key_then_type :
  forall (parameter_name : string) (schema : gmap string json)
         (required : bool) (d : string),
    schema !! "description" = Some (JStr d) ->
    (forall values,
        schema !! "enum" = Some (JList (JStr <$> values)) ->
        parameter_from_openai_api parameter_name schema required
        = Ok (EnumParameter parameter_name d values required))
    /\ (schema !! "enum" = None ->
        (schema !! "type" = Some (JStr "string") ->
         parameter_from_openai_api parameter_name schema required
         = Ok (StringParameter parameter_name d required))
        /\ (schema !! "type" = Some (JStr "number") ->
            parameter_from_openai_api parameter_name schema required
            = Ok (NumberParameter parameter_name d required))
        /\ (forall items,
               schema !! "type" = Some (JStr "array") ->
               schema !! "items" = Some items ->
               parameter_from_openai_api parameter_name schema required
               = Ok (ArrayParameter parameter_name d required items))
        /\ (forall ty,
               schema !! "type" = Some ty ->
               eq_str ty "string" = false ->
               eq_str ty "number" = false ->
               eq_str ty "array" = false ->
               parameter_from_openai_api parameter_name schema required
               = Raise (ValueError "Unknown parameter type: " ty))).
Proof.
  intros pn schema req d Hd. unfold parameter_from_openai_api. split.
  - intros values He. rewrite (has_key_true _ _ _ He).
    rewrite (getitem_some _ _ _ Hd), (getitem_some _ _ _ He).
    cbn [bind as_str as_str_list]. now rewrite as_strs_of_strings.
  - intros He. rewrite (has_key_false _ _ He). repeat split.
    + intros Ht. now rewrite (getitem_some _ _ _ Ht), (getitem_some _ _ _ Hd).
    + intros Ht. now rewrite (getitem_some _ _ _ Ht), (getitem_some _ _ _ Hd).
    + intros items Ht Hi.
      now rewrite (getitem_some _ _ _ Ht), (getitem_some _ _ _ Hd),
        (getitem_some _ _ _ Hi).
    + intros ty Ht H1 H2 H3. rewrite (getitem_some _ _ _ Ht).
      cbn [bind]. now rewrite H1, H2, H3.
Qed.

Lemma reconstruction_by_enum_key_then_type_witness :
  parameter_from_openai_api "size"
    {[ "type" := JStr "number"; "description" := JStr "how many" ]} false
  = Ok (NumberParameter "size" "how many" false)
  /\ parameter_from_openai_api "size"
       {[ "type" := JStr "enum"; "description" := JStr "how many" ]} false
     = Raise (ValueError "Unknown parameter type: " (JStr "enum")).
Proof.
  split.
  - refine (proj1 (proj2 (proj2
      (reconstruction_by_enum_key_then_type "size" _ false "how many" _) _))
      _); reflexivity.
  - refine (proj2 (proj2 (proj2 (proj2
      (reconstruction_by_enum_key_then_type "size" _ false "how many" _) _)))
      _ _ _ _ _); reflexivity.
Defined.

End SchemaFacts.

(** ** Parameters: agreement of the four renderings *)

Section RenderingFacts.

Variable json_dumps : option nat -> json -> string.

#[local] Abbreviation natural := (as_natural_language json_dumps).
#[local] Abbreviation documented := (as_documented_python json_dumps).

(** A Number parameter reads the same in three of the four renderings
    whether it is required or not, while the standard schema tells the
    two apart; the OpenAI rendering of a Number parameter does not hold
    its name either. *)
Lemma renderings_agree_counterexample :
  as_natural_language (fun _ _ => "") (NumberParameter "limit" "how many" true)
  = as_natural_language (fun _ _ => "")
      (NumberParameter "limit" "how many" false)
  /\ as_documented_python (fun _ _ => "")
       (NumberParameter "limit" "how many" true)
     = as_documented_python (fun _ _ => "")
         (NumberParameter "limit" "how many" false)
  /\ as_openai_info (NumberParameter "limit" "how many" true)
     = as_openai_info (NumberParameter "limit" "how many" false)
  /\ as_standard_api (NumberParameter "limit" "how many" true) !! "required"
     = Some (JBool true)
  /\ as_standard_api (NumberParameter "limit" "how many" false) !! "required"
     = Some (JBool false)
  /\ as_openai_info (NumberParameter "limit" "how many" true)
     = as_openai_info (NumberParameter "bound" "how many" true).
Proof. repeat split. Qed.

Lemma standard_fields (p : parameter) :
  as_standard_api p !! "name" = Some (JStr (name p))
  /\ as_standard_api p !! "description" = Some (JStr (description p))
  /\ as_standard_api p !! "required" = Some (JBool (required p)).
Proof. destruct p; repeat split. Qed.

Lemma standard_tells (p : parameter) :
  tells_name as_standard_api p /\ tells_description as_standard_api p
  /\ tells_required as_standard_api p.
Proof.
  split; [|split].
  - intros n n' H.
    apply (f_equal (fun m : gmap string json => m !! "name")) in H.
    rewrite !(proj1 (standard_fields _)) in H.
    destruct p; simpl in H; congruence.
  - intros d d' H.
    apply (f_equal (fun m : gmap string json => m !! "description")) in H.
    rewrite !(proj1 (proj2 (standard_fields _))) in H.
    destruct p; simpl in H; congruence.
  - intros H.
    apply (f_equal (fun m : gmap string json => m !! "required")) in H.
    rewrite !(proj2 (proj2 (standard_fields _))) in H.
    destruct p; simpl in H; congruence.
Qed.

Lemma openai_fields (p : parameter) :
  as_openai_info p !! "description" = Some (JStr (description p))
  /\ as_openai_info p !! "required" = None
  /\ (forall r, as_openai_info (with_required r p) = as_openai_info p).
Proof. destruct p; repeat split. Qed.

(** Only the String variant writes the name into its OpenAI rendering. *)
Lemma openai_name (p : parameter) :
  as_openai_info p !! "name"
  = match class_of p with
    | StringParameterClass => Some (JStr (name p))
    | _ => None
    end.
Proof. now destruct p. Qed.

Lemma openai_tells_description (p : parameter) :
  tells_description as_openai_info p.
Proof.
  intros d d' H.
  apply (f_equal (fun m : gmap string json => m !! "description")) in H.
  rewrite !(proj1 (openai_fields _)) in H.
  destruct p; simpl in H; congruence.
Qed.

Ltac cancel_heads H :=
  repeat (apply sapp_inv_head in H);
  first [exact H | apply sapp_inv_tail in H; exact H].

Lemma texts_tell_name (p : parameter) :
  tells_name natural p /\ tells_name documented p.
Proof.
  split; intros n n' H; destruct p;
    cbn [with_name as_natural_language as_documented_python] in H;
    now apply sapp_inv_tail in H.
Qed.

Lemma texts_tell_description (p : parameter) :
  tells_description natural p /\ tells_description documented p.
Proof.
  split; intros d d' H; destruct p;
    cbn [with_description as_natural_language as_documented_python] in H;
    cancel_heads H.
Qed.

Lemma texts_tell_required (p : parameter) :
  class_of p = StringParameterClass \/ class_of p = EnumParameterClass ->
  tells_required natural p /\ tells_required documented p.
Proof.
  intros Hc. split; intros H; destruct p;
    try (destruct Hc as [Hc | Hc]; discriminate Hc);
    cbn [with_required as_natural_language as_documented_python] in H;
    repeat (apply sapp_inv_head in H); discriminate H.
Qed.

(** The two texts, written out: the name, the word for the type in
    brackets, followed there by the mark of a required String or Enum
    parameter, then the description and a tail. The texts are the same
    but for the word that names the type. *)
Lemma texts_written_out (p : parameter) :
  exists tail,
    natural p
    = name p +:+ " ("
        +:+ match class_of p with
            | StringParameterClass => "string"
            | EnumParameterClass => "enum"
            | NumberParameterClass => "number"
            | ArrayParameterClass => "array"
            end
        +:+ match class_of p with
            | StringParameterClass | EnumParameterClass =>
                if required p then ", required" else ""
            | NumberParameterClass | ArrayParameterClass => ""
            end
        +:+ "): " +:+ description p +:+ tail
    /\ documented p
       = name p +:+ " ("
           +:+ match class_of p with
               | StringParameterClass | EnumParameterClass => "str"
               | NumberParameterClass => "number"
               | ArrayParameterClass => "list"
               end
           +:+ match class_of p with
               | StringParameterClass | EnumParameterClass =>
                   if required p then ", required" else ""
               | NumberParameterClass | ArrayParameterClass => ""
               end
           +:+ "): " +:+ description p +:+ tail.
Proof.
  destruct p as [n d r | n d values r | n d r | n d r item_schema].
  - exists ".". now destruct r.
  - exists (". Possible values: " +:+ PyStr.join ", " values). now destruct r.
  - exists "". cbn. now rewrite sapp_nil_r.
  - exists (". Each item should follow the JSON schema: "
              +:+ json_dumps None item_schema).
    split; reflexivity.
Qed.

End RenderingFacts.

Section ToolSchemaFacts.

(** In the tool's OpenAI schema the list "required" names exactly the
    required parameters. *)
Lemma required_names_spec (ps : list parameter) (n : string) :
  In (JStr n) (Tool.required_names ps)
  <-> exists p, In p ps /\ name p = n /\ required p = true.
Proof.
  unfold Tool.required_names. induction ps as [|a ps IH].
  - simpl. split; [tauto | now intros [p [[] _]]].
  - cbn [List.filter]. destruct (required a) eqn:Ha.
    + cbn [fmap list_fmap In].
      change (list_fmap parameter json (fun p => JStr (name p))
                (List.filter required ps))
        with ((fun p => JStr (name p)) <$> List.filter required ps).
      rewrite IH. split.
      * intros [H | (p & Hp & Hn & Hr)].
        -- injection H as H. exists a. simpl. auto.
        -- exists p. simpl. auto.
      * intros (p & [-> | Hp] & Hn & Hr).
        -- left. now rewrite Hn.
        -- right. now exists p.
    + rewrite IH. split.
      * intros (p & Hp & Hn & Hr). exists p. simpl. auto.
      * intros (p & [-> | Hp] & Hn & Hr); [congruence | now exists p].
Qed.

Lemma properties_from (ps : list parameter) (m : gmap string json)
    (n : string) :
  is_Some (foldl (fun m p => <[name p := JDict (as_openai_info p)]> m) m ps
             !! n)
  <-> is_Some (m !! n) \/ exists p, In p ps /\ name p = n.
Proof.
  revert m. induction ps as [|a ps IH]; intros m.
  - simpl. split; [auto | now intros [H | [p [[] _]]]].
  - cbn [foldl]. rewrite IH, lookup_insert_is_Some. split.
    + intros [[H | [_ H]] | (p & Hp & Hn)].
      * right. exists a. simpl. auto.
      * now left.
      * right. exists p. simpl. auto.
    + intros [H | (p & [-> | Hp] & Hn)].
      * destruct (decide (name a = n)); left; [now left | now right].
      * left. now left.
      * right. now exists p.
Qed.

(** The keys of "properties" are exactly the names of the parameters. *)
Lemma properties_keys (ps : list parameter) (n : string) :
  is_Some (Tool.properties ps !! n) <-> exists p, In p ps /\ name p = n.
Proof.
  unfold Tool.properties. rewrite properties_from, lookup_empty. split.
  - intros [[x Hx] | H]; [discriminate | exact H].
  - now right.
Qed.

End ToolSchemaFacts.

Section RenderingAgreement.

Variable json_dumps : option nat -> json -> string.

#[local] Abbreviation natural' := (as_natural_language json_dumps).
#[local] Abbreviation documented' := (as_documented_python json_dumps).

(** C3, as the code has it. The standard schema holds the name, the
    description and the required flag of every parameter. The OpenAI
    rendering of a parameter holds its description and says nothing of
    whether it is required (it is the same for the required and for the
    optional parameter); the tool's OpenAI schema holds the names as the
    keys of "properties" and the required ones in the list "required".
    Each of the two texts is the name, then in brackets the word for the
    type, followed for a String or an Enum parameter by ", required"
    exactly when the parameter is required, then a colon, the
    description and a tail; the tail is the same in both texts, which
    differ only in the word for the type. So both texts tell the name
    and the description of every parameter, and tell whether a String or
    an Enum parameter is required. *)
Theorem renderings_agree_where_rendered :
  (forall p,
      as_standard_api p !! "name" = Some (JStr (name p))
      /\ as_standard_api p !! "description" = Some (JStr (description p))
      /\ as_standard_api p !! "required" = Some (JBool (required p))
      /\ tells_name as_standard_api p
      /\ tells_description as_standard_api p
      /\ tells_required as_standard_api p)
  /\ (forall p,
         as_openai_info p !! "description" = Some (JStr (description p))
         /\ tells_description as_openai_info p
         /\ as_openai_info p !! "required" = None
         /\ (forall r, as_openai_info (with_required r p) = as_openai_info p)
         /\ as_openai_info p !! "name"
            = match class_of p with
              | StringParameterClass => Some (JStr (name p))
              | _ => None
              end)
  /\ (forall ps n,
         (is_Some (Tool.properties ps !! n)
          <-> exists p, In p ps /\ name p = n)
         /\ (In (JStr n) (Tool.required_names ps)
             <-> exists p, In p ps /\ name p = n /\ required p = true))
  /\ (forall p,
         tells_name natural' p /\ tells_description natural' p
         /\ tells_name documented' p /\ tells_description documented' p
         /\ exists tail,
             natural' p
             = name p +:+ " ("
                 +:+ match class_of p with
                     | StringParameterClass => "string"
                     | EnumParameterClass => "enum"
                     | NumberParameterClass => "number"
                     | ArrayParameterClass => "array"
                     end
                 +:+ match class_of p with
                     | StringParameterClass | EnumParameterClass =>
                         if required p then ", required" else ""
                     | NumberParameterClass | ArrayParameterClass => ""
                     end
                 +:+ "): " +:+ description p +:+ tail
             /\ documented' p
                = name p +:+ " ("
                    +:+ match class_of p with
                        | StringParameterClass | EnumParameterClass => "str"
                        | NumberParameterClass => "number"
                        | ArrayParameterClass => "list"
                        end
                    +:+ match class_of p with
                        | StringParameterClass | EnumParameterClass =>
                            if required p then ", required" else ""
                        | NumberParameterClass | ArrayParameterClass => ""
                        end
                    +:+ "): " +:+ description p +:+ tail)
  /\ (forall p,
         class_of p = StringParameterClass
         \/ class_of p = EnumParameterClass ->
         tells_required natural' p /\ tells_required documented' p).
Proof.
  split; [|split; [|split; [|split]]].
  - intros p. destruct (standard_fields p) as (? & ? & ?).
    destruct (standard_tells p) as (? & ? & ?). repeat split; assumption.
  - intros p. destruct (openai_fields p) as (? & ? & ?).
    split; [assumption|]. split; [apply openai_tells_description|].
    split; [assumption|]. split; [assumption | apply openai_name].
  - intros ps n. split; [apply properties_keys | apply required_names_spec].
  - intros p. destruct (texts_tell_name json_dumps p).
    destruct (texts_tell_description json_dumps p).
    repeat split; try assumption. apply texts_written_out.
  - intros p. apply texts_tell_required.
Qed.

End RenderingAgreement.

Lemma renderings_agree_where_rendered_witness :
  class_of (StringParameter "query" "what to look for" true)
  = StringParameterClass
  /\ tells_required (as_natural_language (fun _ _ => ""))
       (StringParameter "query" "what to look for" true)
  /\ tells_required (as_documented_python (fun _ _ => ""))
       (StringParameter "query" "what to look for" true).
Proof.
  split; [reflexivity|].
  apply (proj2 (proj2 (proj2 (proj2
    (renderings_agree_where_rendered (fun _ _ => "")))))).
  left. reflexivity.
Defined.

(** ** The negotiator *)

Section NegotiatorFacts.

Context {Conversation Party TaskSchema Metadata Protocol : Type}.
Variable new_conversation : string -> list Tool.t -> string -> Conversation.
Variable chat : Conversation -> string -> string * Conversation.
Variable extract_substring : string -> string -> string -> option string.
Variable extract_metadata : string -> Metadata.
Variable mkProtocol : string -> list string -> Metadata -> Protocol.
Variable from_taskschemalike : json -> TaskSchema.
Variable str_task_schema : TaskSchema -> string.
Variable TASK_NEGOTIATOR_PROMPT : string.
Variable callback : Party -> string -> gmap string string * Party.

#[local] Abbreviation rounds_of :=
  (negotiation_rounds chat extract_substring extract_metadata mkProtocol
     callback).
#[local] Abbreviation block_of message :=
  (extract_substring message "<FINALPROTOCOL>" "</FINALPROTOCOL>").

Lemma next_message_well_formed (response : gmap string string) :
  well_formed_response response -> exists m, next_message response = Ok m.
Proof.
  intros (status & Hs & H). unfold next_message.
  rewrite (getitem_some _ _ _ Hs). cbn [bind].
  destruct (String.eqb status "success"); destruct H as [x Hx];
    rewrite (getitem_some _ _ _ Hx); cbn [bind]; eauto.
Qed.

(** The loop makes at most [n] rounds, whatever is replied. *)
Lemma rounds_bound (n : nat) (conversation : Conversation) (party : Party)
    (other_message : string) :
  length (snd (rounds_of n conversation party other_message)) <= n.
Proof.
  revert conversation party other_message.
  induction n as [|n IH]; intros c p m; cbn [negotiation_rounds].
  - simpl. lia.
  - destruct (chat c m) as [message c'].
    destruct (block_of message); [simpl; lia|].
    destruct (callback p message) as [response p'].
    destruct (next_message response) as [m'|e]; [|simpl; lia].
    specialize (IH c' p' m').
    destruct (rounds_of n c' p' m') as [found later]. simpl in *. lia.
Qed.

(** The first round sends the message the loop is entered with. *)
Lemma first_round_outgoing (n : nat) (conversation : Conversation)
    (party : Party) (other_message : string) :
  exists first later,
    snd (rounds_of (S n) conversation party other_message) = first :: later
    /\ outgoing first = other_message
    /\ reply first = fst (chat conversation other_message).
Proof.
  cbn [negotiation_rounds].
  destruct (chat conversation other_message) as [message c'].
  destruct (block_of message); [simpl; eauto|].
  destruct (callback party message) as [response p'].
  destruct (next_message response) as [m'|e]; [|simpl; eauto].
  destruct (rounds_of n c' p' m') as [found later]. simpl. eauto.
Qed.

(** A response that makes the code raise lacks an entry that the
    contract promises, and what is raised is the KeyError of that
    entry. *)
Lemma next_message_raises (response : gmap string string) (e : exn) :
  next_message response = Raise e ->
  ~ well_formed_response response
  /\ (e = KeyError "status" \/ e = KeyError "body" \/ e = KeyError "message").
Proof.
  unfold next_message, getitem. intros H.
  destruct (response !! "status") as [status|] eqn:Hs; cbn [bind] in H.
  - destruct (String.eqb status "success") eqn:E.
    + destruct (response !! "body") as [body|] eqn:Hb; [discriminate H|].
      injection H as <-. split; [|auto].
      intros (status' & Hs' & Hwf). rewrite Hs in Hs'. injection Hs' as <-.
      rewrite E, Hb in Hwf. destruct Hwf as [x Hx]. discriminate Hx.
    + destruct (response !! "message") as [message|] eqn:Hm;
        cbn [bind] in H; [discriminate H|].
      injection H as <-. split; [|auto].
      intros (status' & Hs' & Hwf). rewrite Hs in Hs'. injection Hs' as <-.
      rewrite E, Hm in Hwf. destruct Hwf as [x Hx]. discriminate Hx.
  - injection H as <-. split; [|auto].
    intros (status' & Hs' & _). congruence.
Qed.

Lemma next_message_ok (response : gmap string string) (m : string) :
  next_message response = Ok m -> well_formed_response response.
Proof.
  unfold next_message, getitem. intros H.
  destruct (response !! "status") as [status|] eqn:Hs; cbn [bind] in H;
    [|discriminate H].
  exists status. split; [exact Hs|].
  destruct (String.eqb status "success").
  - destruct (response !! "body"); [eauto | discriminate H].
  - destruct (response !! "message"); [eauto | discriminate H].
Qed.

(** How the loop goes and how it ends. Its rounds are those of an
    exchange with the conversation and the party. It ends with the
    block of the last round's reply, no earlier reply having one; or
    after [n] rounds without any block, the party having answered the
    last reply as well with a well-formed response; or, no reply having
    a block, with what the party's response to the last reply makes the
    code raise. *)
Lemma rounds_classified (n : nat) (conversation : Conversation)
    (party : Party) (other_message : string) :
  let run := rounds_of n conversation party other_message in
  exists party',
    exchanged chat extract_substring callback conversation party
      other_message (snd run) party'
    /\ ((exists earlier final protocol,
            snd run = (earlier ++ [final])%list
            /\ Forall (fun r => extracted r = None) earlier
            /\ extracted final = Some protocol
            /\ fst run
               = Ok (Some (mkProtocol protocol []
                             (extract_metadata protocol))))
        \/ (length (snd run) = n
            /\ Forall (fun r => extracted r = None) (snd run)
            /\ (n = 0
                \/ exists earlier final,
                     snd run = (earlier ++ [final])%list
                     /\ well_formed_response
                          (fst (callback party' (reply final))))
            /\ fst run = Ok None)
        \/ (exists earlier final e,
              snd run = (earlier ++ [final])%list
              /\ Forall (fun r => extracted r = None) (snd run)
              /\ next_message (fst (callback party' (reply final))) = Raise e
              /\ fst run = Raise e)).
Proof.
  revert conversation party other_message.
  induction n as [|n IH]; intros c p m; cbn [negotiation_rounds].
  - exists p. simpl. split; [reflexivity|]. right. left.
    repeat split; auto.
  - destruct (chat c m) as [message c'] eqn:Hchat.
    destruct (block_of message) as [protocol|] eqn:Hblock.
    + exists p. cbn [fst snd exchanged]. rewrite Hchat, Hblock.
      split; [split; reflexivity|].
      left. exists [], {| outgoing := m; reply := message;
                          extracted := Some protocol |}, protocol.
      repeat split. constructor.
    + destruct (callback p message) as [response p'] eqn:Hcb.
      destruct (next_message response) as [m'|e] eqn:Hnext.
      * destruct n as [|n].
        -- exists p. cbn [negotiation_rounds fst snd exchanged].
           rewrite Hchat, Hblock. split; [split; reflexivity|].
           right. left. split; [reflexivity|].
           split; [constructor; [reflexivity | constructor]|].
           split; [|reflexivity]. right.
           exists [], {| outgoing := m; reply := message;
                         extracted := None |}.
           split; [reflexivity|]. cbn [reply]. rewrite Hcb.
           exact (next_message_ok _ _ Hnext).
        -- specialize (IH c' p' m').
           destruct (first_round_outgoing n c' p' m')
             as (next & rest & Hlater & _).
           destruct (rounds_of (S n) c' p' m') as [found later].
           cbn [fst snd] in *. subst later.
           destruct IH as (party' & Hex & IH). exists party'.
           cbn [exchanged]. rewrite Hchat, Hblock, Hcb. split.
           ++ split; [reflexivity|]. split; [reflexivity|]. now exists m'.
           ++ destruct IH as [(earlier & final & protocol & Hs & He & Hf & Hr)
                             | [(Hlen & Hnone & Hlast & Hr)
                               | (earlier & final & e & Hs & Hnone
                                  & Hraise & Hr)]].
              ** left.
                 exists ({| outgoing := m; reply := message;
                            extracted := None |} :: earlier), final, protocol.
                 rewrite Hs. repeat split; try assumption.
                 constructor; [reflexivity | exact He].
              ** right. left. split; [simpl in *; now rewrite Hlen|].
                 split; [constructor; [reflexivity | exact Hnone]|].
                 split; [|exact Hr]. right.
                 destruct Hlast as [Hn | (earlier & final & Hs & Hwf)];
                   [discriminate Hn|].
                 exists ({| outgoing := m; reply := message;
                            extracted := None |} :: earlier), final.
                 rewrite Hs. split; [reflexivity | exact Hwf].
              ** right. right.
                 exists ({| outgoing := m; reply := message;
                            extracted := None |} :: earlier), final, e.
                 rewrite Hs in *. repeat split; try assumption.
                 constructor; [reflexivity | exact Hnone].
      * exists p. cbn [fst snd exchanged]. rewrite Hchat, Hblock.
        split; [split; reflexivity|].
        right. right.
        exists [], {| outgoing := m; reply := message; extracted := None |},
          e.
        cbn [reply]. rewrite Hcb. repeat split; try assumption.
        constructor; [reflexivity | constructor].
Qed.


(** C6. When a round's reply holds no block and the other party answers
    with a status other than "success" and a message saying what
    failed, the loop goes on with the rounds that remain, and the message
    it sends next to the conversation is the error report that quotes
    what the party said. *)
Theorem party_failure_is_reported_and_negotiation_goes_on :
  forall (n : nat) (conversation conversation' : Conversation)
         (party party' : Party) (other_message message : string)
         (response : gmap string string) (status reason : string),
    chat conversation other_message = (message, conversation') ->
    block_of message = None ->
    callback party message = (response, party') ->
    response !! "status" = Some status ->
    status <> "success" ->
    response !! "message" = Some reason ->
    let report := "Error interacting with the other party: " +:+ reason in
    let this :=
      {| outgoing := other_message; reply := message; extracted := None |} in
    let rest :=
      negotiation_rounds chat extract_substring extract_metadata mkProtocol
        callback n conversation' party' report in
    negotiation_rounds chat extract_substring extract_metadata mkProtocol
      callback (S n) conversation party other_message
    = (fst rest, this :: snd rest)
    /\ (0 < n ->
        exists next later,
          snd rest = next :: later /\ outgoing next = report).
Proof.
  intros n c c' p p' m message response status reason
    Hchat Hblock Hcb Hstatus Hne Hreason report this rest.
  split.
  - cbn [negotiation_rounds]. rewrite Hchat, Hblock, Hcb.
    unfold next_message. rewrite (getitem_some _ _ _ Hstatus). cbn [bind].
    apply String.eqb_neq in Hne. rewrite Hne.
    rewrite (getitem_some _ _ _ Hreason). cbn [bind].
    fold report. fold rest. now destruct rest.
  - intros Hn. destruct n as [|n]; [lia|].
    destruct (first_round_outgoing n c' p' report)
      as (next & later & Hs & Ho & _).
    exists next, later. split; assumption.
Qed.

End NegotiatorFacts.

Lemma agreeing_party_keeps_contract (party : unit) (message : string) :
  well_formed_response (fst (agreeing_party party message)).
Proof. exists "success". split; [reflexivity | now exists "That suits me."]. Qed.



Lemma party_failure_is_reported_witness :
  rambling_chat 0 "Hello! How may I help you?"
  = ("Let me think about it a little longer.", 1)
  /\ extract_substring_model "Let me think about it a little longer."
       "<FINALPROTOCOL>" "</FINALPROTOCOL>" = None
  /\ negotiation_rounds rambling_chat extract_substring_model (fun _ => tt)
       (fun document _ _ => document) unreachable_party 2 0 tt
       "Hello! How may I help you?"
     = (Ok None,
        [ {| outgoing := "Hello! How may I help you?";
             reply := "Let me think about it a little longer.";
             extracted := None |};
          {| outgoing :=
               "Error interacting with the other party: connection refused";
             reply := "Let me think about it a little longer.";
             extracted := None |} ]).
Proof.
  split; [reflexivity|]. split; [reflexivity|].
  refine (eq_trans (proj1
    (party_failure_is_reported_and_negotiation_goes_on rambling_chat
       extract_substring_model (fun _ => tt) (fun document _ _ => document)
       unreachable_party 1 0 1 tt tt "Hello! How may I help you?"
       "Let me think about it a little longer."
       {[ "status" := "error"; "message" := "connection refused" ]}
       "error" "connection refused" _ _ _ _ _ _)) _);
    try reflexivity.
  discriminate.
Defined.

(** ** The tool-call boundary *)

(** C8. When a tool's function raises an exception (an instance of
    [Exception]) in a call made for the backend, the call returns the
    text "Tool call failed: " followed by the text of the exception, and
    nothing is raised; when the function returns, the call returns the
    same value. *)
Theorem tool_call_boundary :
  forall (tool : Tool.t) (args : list json) (kwargs : gmap string json),
    (forall e,
        Tool.function tool args kwargs = Propagated e ->
        is_Exception e = true ->
        Tool.call_tool_for_toolformer tool args kwargs
        = Returned (JStr ("Tool call failed: " +:+ str_of e)))
    /\ (forall v,
           Tool.function tool args kwargs = Returned v ->
           Tool.call_tool_for_toolformer tool args kwargs = Returned v).
Proof.
  intros tool args kwargs. unfold Tool.call_tool_for_toolformer. split.
  - intros e -> ->. reflexivity.
  - intros v ->. reflexivity.
Qed.

Lemma tool_call_boundary_witness :
  Tool.call_tool_for_toolformer dividing_tool [JNum 0] ∅
  = Returned (JStr "Tool call failed: division by zero")
  /\ Tool.call_tool_for_toolformer dividing_tool [JNum 5] ∅
     = Returned (JNum 2).
Proof.
  split.
  - exact (proj1 (tool_call_boundary dividing_tool [JNum 0] ∅)
             {| is_Exception := true; str_of := "division by zero" |}
             eq_refl eq_refl).
  - exact (proj2 (tool_call_boundary dividing_tool [JNum 5] ∅)
             (JNum 2) eq_refl).
Defined.

(** What is no [Exception] (a keyboard interrupt, an exit) is not caught
    at the boundary, and a call from a routine catches nothing. *)
Lemma tool_call_lets_others_through (tool : Tool.t) (args : list json)
    (kwargs : gmap string json) (e : raised) :
  Tool.function tool args kwargs = Propagated e ->
  (is_Exception e = false ->
   Tool.call_tool_for_toolformer tool args kwargs = Propagated e)
  /\ Tool.as_executable_function tool args kwargs = Propagated e.
Proof.
  intros H. unfold Tool.call_tool_for_toolformer, Tool.as_executable_function.
  rewrite H. split; [now intros -> | reflexivity].
Qed.

(** ** The programmer: the loop of attempts *)

Section ProgrammerFacts.

Context {Conversation : Type}.
Variable new_conversation : string -> list Tool.t -> string -> Conversation.
Variable chat : Conversation -> string -> string * Conversation.
Variable extract_substring : string -> string -> string -> option string.
Variable json_dumps : option nat -> json -> string.
Variable TASK_PROGRAMMER_PROMPT : string.

#[local] Abbreviation attempts_of := (attempts chat extract_substring).
#[local] Abbreviation implementation_of reply :=
  (extract_substring reply "<IMPLEMENTATION>" "</IMPLEMENTATION>").

(** Without any block in the replies, all [n] attempts are made and the
    variable ends up bound to [None], unless there was no attempt. *)
Lemma attempts_without_block :
  (forall conversation message,
      implementation_of (fst (chat conversation message)) = None) ->
  forall n conversation message implementation,
    fst (attempts_of n conversation message implementation)
    = match n with O => implementation | S _ => Some None end
    /\ length (snd (attempts_of n conversation message implementation)) = n.
Proof.
  intros Hnone. induction n as [|n IH]; intros c m b; [now split|].
  cbn [attempts]. pose proof (Hnone c m) as H.
  destruct (chat c m) as [reply c']. simpl in H. rewrite H.
  destruct (IH c' NUDGE (Some None)) as [Hf Hl].
  destruct (attempts_of n c' NUDGE (Some None)) as [final later].
  simpl in *. split; [|now rewrite Hl].
  rewrite Hf. now destruct n.
Qed.

(** The variable is only ever bound to the block of a reply. *)
Lemma attempts_found (n : nat) (conversation : Conversation)
    (message : string) (binding : option (option string))
    (implementation : string) :
  fst (attempts_of n conversation message binding)
  = Some (Some implementation) ->
  binding = Some (Some implementation)
  \/ exists conversation' message',
       implementation_of (fst (chat conversation' message'))
       = Some implementation.
Proof.
  revert conversation message binding.
  induction n as [|n IH]; intros c m b; cbn [attempts]; [now left|].
  destruct (chat c m) as [reply c'] eqn:Hchat.
  destruct (implementation_of reply) as [found|] eqn:Hfound.
  - simpl. intros H. injection H as ->. right. exists c, m.
    now rewrite Hchat.
  - specialize (IH c' NUDGE (Some None)).
    destruct (attempts_of n c' NUDGE (Some None)) as [final later].
    simpl in *. intros H. destruct (IH H) as [H' | H']; [discriminate|].
    now right.
Qed.

(** The first reply holding a block ends the loop: nothing more is sent. *)
Lemma first_attempt_found (n : nat) (conversation : Conversation)
    (message implementation : string)
    (binding : option (option string)) :
  implementation_of (fst (chat conversation message)) = Some implementation ->
  attempts_of (S n) conversation message binding
  = (Some (Some implementation), [message]).
Proof.
  intros H. cbn [attempts]. destruct (chat conversation message).
  simpl in H. now rewrite H.
Qed.

(** C5. What the code does when no reply of the backend holds an
    implementation block: after all the attempts (at least one) the call
    raises the AttributeError of [None.strip()]; it is the missing value
    that fails, and no condition of its own is raised for the exhausted
    attempts. Without any attempt the variable is unbound. *)
Theorem synthesis_exhaustion_dereferences_none :
  (forall conversation message,
      implementation_of (fst (chat conversation message)) = None) ->
  forall (num_attempts : nat) (task_schema : json)
         (protocol_document : string),
    let run :=
      SenderProgrammer_call new_conversation chat extract_substring
        json_dumps TASK_PROGRAMMER_PROMPT num_attempts task_schema
        protocol_document in
    length (snd run) = num_attempts
    /\ fst run
       = match num_attempts with
         | O => Raise (UnboundLocalError "implementation")
         | S _ =>
             Raise (AttributeError
                      "'NoneType' object has no attribute 'strip'")
         end.
Proof.
  intros Hnone num_attempts task_schema protocol_document.
  unfold SenderProgrammer_call.
  set (conversation := new_conversation _ _ _). set (message := _ +:+ _).
  destruct (attempts_without_block Hnone num_attempts conversation message
              None) as [Hf Hl].
  destruct (attempts_of num_attempts conversation message None)
    as [final sent].
  simpl in *. subst final. now destruct num_attempts.
Qed.

End ProgrammerFacts.

Lemma rambling_chat_has_no_block (conversation : nat) (message : string) :
  extract_substring_model (fst (rambling_chat conversation message))
    "<IMPLEMENTATION>" "</IMPLEMENTATION>" = None.
Proof. reflexivity. Qed.

Lemma synthesis_exhaustion_dereferences_none_witness :
  (forall conversation message,
      extract_substring_model (fst (rambling_chat conversation message))
        "<IMPLEMENTATION>" "</IMPLEMENTATION>" = None)
  /\ fst (SenderProgrammer_call (fun _ _ _ => 0) rambling_chat
            extract_substring_model (fun _ _ => "{}") "" 5 JNull "protocol")
     = Raise (AttributeError "'NoneType' object has no attribute 'strip'").
Proof.
  split; [exact rambling_chat_has_no_block|].
  exact (proj2 (synthesis_exhaustion_dereferences_none (fun _ _ _ => 0)
                  rambling_chat extract_substring_model (fun _ _ => "{}") ""
                  rambling_chat_has_no_block 5 JNull "protocol")).
Defined.

(** ** The programmer: what is done to the extracted text *)

Section SanitizeFacts.

Lemma replace_from_skip (k : nat) (old new s : string) :
  PyStr.replace_from k old new s
  = PyStr.replace_from 0 old new (PyStr.drop k s).
Proof.
  revert k. induction s as [|c s IH]; intros [|k]; try reflexivity.
  cbn [PyStr.replace_from PyStr.drop]. apply IH.
Qed.

Lemma prefix_cons_ne (a b : ascii) (p s : string) :
  a <> b -> String.prefix (String a p) (String b s) = false.
Proof. intros H. simpl. now destruct (ascii_dec a b). Qed.

Lemma prefix_cons_eq (a : ascii) (p s : string) :
  String.prefix (String a p) (String a s) = String.prefix p s.
Proof. simpl. now destruct (ascii_dec a a). Qed.

Lemma prefix_fence (s : string) :
  String.prefix "```" s = (3 <=? ticks s).
Proof.
  destruct s as [|c1 s]; [reflexivity|].
  destruct (Ascii.eqb_spec c1 "`") as [->|H1];
    [|rewrite prefix_cons_ne by congruence; simpl;
      apply Ascii.eqb_neq in H1; now rewrite H1].
  rewrite prefix_cons_eq. cbn [ticks]. rewrite Ascii.eqb_refl.
  destruct s as [|c2 s]; [reflexivity|].
  destruct (Ascii.eqb_spec c2 "`") as [->|H2];
    [|rewrite prefix_cons_ne by congruence; simpl;
      apply Ascii.eqb_neq in H2; now rewrite H2].
  rewrite prefix_cons_eq. cbn [ticks]. rewrite Ascii.eqb_refl.
  destruct s as [|c3 s]; [reflexivity|].
  destruct (Ascii.eqb_spec c3 "`") as [->|H3];
    [|rewrite prefix_cons_ne by congruence; simpl;
      apply Ascii.eqb_neq in H3; now rewrite H3].
  rewrite prefix_cons_eq. cbn [ticks]. rewrite Ascii.eqb_refl.
  now destruct s.
Qed.

Lemma ticks_unfence (s : string) :
  ticks s < 3 -> ticks (PyStr.replace_from 0 "```" "" s) = ticks s.
Proof.
  induction s as [|c s IH]; [reflexivity|]. intros H.
  cbn [PyStr.replace_from]. rewrite prefix_fence.
  destruct (3 <=? ticks (String c s)) eqn:E; [apply Nat.leb_le in E; lia|].
  cbn [ticks] in *. destruct (Ascii.eqb c "`"); [|reflexivity].
  rewrite IH; [reflexivity | lia].
Qed.

Lemma unfenced (s : string) :
  forall skip, PyStr.contains "```" (PyStr.replace_from skip "```" "" s) = false.
Proof.
  induction s as [|c s IH]; intros skip; [reflexivity|].
  destruct skip as [|k]; cbn [PyStr.replace_from]; [|apply IH].
  rewrite prefix_fence.
  destruct (3 <=? ticks (String c s)) eqn:E; [simpl; apply IH|].
  cbn [PyStr.contains]. rewrite IH, orb_false_r, prefix_fence.
  apply Nat.leb_gt in E. apply Nat.leb_gt.
  cbn [ticks] in *. destruct (Ascii.eqb c "`"); [|lia].
  rewrite ticks_unfence; lia.
Qed.

Lemma lstrip_inside (s : string) : exists a, s = a +:+ PyStr.lstrip s.
Proof.
  induction s as [|c s [a IH]]; [now exists ""|]. simpl.
  destruct (PyStr.isspace c); [|now exists ""].
  exists (String c a). simpl. now rewrite <- IH.
Qed.

Lemma rstrip_inside (s : string) : exists b, s = PyStr.rstrip s +:+ b.
Proof.
  induction s as [|c s [b IH]]; [now exists ""|]. simpl.
  destruct (PyStr.rstrip s) as [|x r].
  - destruct (PyStr.isspace c).
    + now exists (String c s).
    + exists b. simpl in *. now rewrite <- IH.
  - exists b. simpl in *. now rewrite <- IH.
Qed.

Lemma strip_inside (s : string) :
  exists a b, s = a +:+ PyStr.strip s +:+ b.
Proof.
  unfold PyStr.strip. destruct (rstrip_inside s) as [b Hb].
  destruct (lstrip_inside (PyStr.rstrip s)) as [a Ha].
  exists a, b. rewrite <- sapp_assoc, <- Ha. exact Hb.
Qed.

Lemma contains_inside (sub a s b : string) :
  PyStr.contains sub s = true -> PyStr.contains sub (a +:+ s +:+ b) = true.
Proof.
  rewrite !contains_spec. intros (x & y & ->).
  exists (a +:+ x), (y +:+ b). now rewrite !sapp_assoc.
Qed.

Lemma contains_strip (sub s : string) :
  PyStr.contains sub (PyStr.strip s) = true -> PyStr.contains sub s = true.
Proof.
  intros H. destruct (strip_inside s) as (a & b & Hs).
  rewrite Hs. now apply contains_inside.
Qed.

Lemma ticks_rename (s : string) :
  ticks (PyStr.replace_from 0 "def send_query(" "def run(" s) <= ticks s.
Proof.
  induction s as [|c s IH]; [reflexivity|].
  cbn [PyStr.replace_from].
  destruct (String.prefix "def send_query(" (String c s)) eqn:E.
  - simpl. lia.
  - cbn [ticks]. destruct (Ascii.eqb c "`"); lia.
Qed.

Lemma rename_keeps_unfenced (s : string) :
  PyStr.contains "```" s = false ->
  forall skip,
    PyStr.contains "```"
      (PyStr.replace_from skip "def send_query(" "def run(" s) = false.
Proof.
  induction s as [|c s IH]; intros H skip; [reflexivity|].
  cbn [PyStr.contains] in H. apply orb_false_iff in H as [Hp Hs].
  destruct skip as [|k]; cbn [PyStr.replace_from]; [|now apply IH].
  destruct (String.prefix "def send_query(" (String c s)) eqn:E.
  - change (PyStr.contains "```" ("def run(" +:+ ?x)) with (PyStr.contains "```" x).
    now apply IH.
  - cbn [PyStr.contains]. rewrite IH, orb_false_r by assumption.
    rewrite prefix_fence in *. apply Nat.leb_gt in Hp. apply Nat.leb_gt.
    cbn [ticks] in *. destruct (Ascii.eqb c "`"); [|lia].
    pose proof (ticks_rename s). lia.
Qed.

Lemma rstrip_sapp_gen (x y : string) :
  PyStr.rstrip (x +:+ y)
  = match PyStr.rstrip y with
    | EmptyString => PyStr.rstrip x
    | r => x +:+ r
    end.
Proof.
  induction x as [|c x IH]; simpl.
  - now destruct (PyStr.rstrip y).
  - rewrite IH. destruct (PyStr.rstrip y) as [|a r]; [reflexivity|].
    now destruct x.
Qed.

End SanitizeFacts.

Section KeepsText.

(** A text [P] that starts and ends with something other than
    whitespace. *)
Variables (p0 : ascii) (P' : string).
Let P := String p0 P'.
Hypothesis P_starts : PyStr.isspace p0 = false.
Hypothesis P_ends : PyStr.rstrip P = P.

Lemma strip_keeps (s : string) :
  PyStr.contains P s = true -> PyStr.contains P (PyStr.strip s) = true.
Proof.
  rewrite !contains_spec. intros (a & b & ->).
  assert (Hr : PyStr.rstrip (a +:+ P +:+ b) = a +:+ P +:+ PyStr.rstrip b).
  { rewrite <- !sapp_assoc, rstrip_sapp_gen.
    destruct (PyStr.rstrip b); [|reflexivity].
    rewrite sapp_nil_r. apply rstrip_sapp; [exact P_ends | discriminate]. }
  unfold PyStr.strip. rewrite Hr.
  destruct (lstrip_sapp a p0 (P' +:+ PyStr.rstrip b) P_starts) as [a' Ha].
  exists a', (PyStr.rstrip b). exact Ha.
Qed.

(** Removing every [F] keeps [P], when no [F] can begin inside a [P] and
    no [P] can reach into an [F]. *)
Variable F : string.
Hypothesis F_not_empty : F <> "".
Hypothesis F_not_in_P :
  forall x,
    PyStr.replace_from 0 F "" (P +:+ x) = P +:+ PyStr.replace_from 0 F "" x.
Hypothesis P_not_over_F :
  forall rest, PyStr.contains P (F +:+ rest) = PyStr.contains P rest.

Lemma removal_keeps_bounded (n : nat) (s : string) :
  String.length s <= n ->
  PyStr.contains P s = true ->
  PyStr.contains P (PyStr.replace_from 0 F "" s) = true.
Proof.
  revert s. induction n as [|n IH]; intros s Hlen H.
  - destruct s; [discriminate H | simpl in Hlen; lia].
  - destruct (String.prefix P s) eqn:EP.
    + apply prefix_spec in EP as [x ->]. rewrite F_not_in_P.
      apply contains_spec. now exists "", (PyStr.replace_from 0 F "" x).
    + destruct s as [|c t]; [discriminate H|].
      cbn [PyStr.contains] in H. rewrite EP in H. simpl in H, Hlen.
      cbn [PyStr.replace_from].
      destruct (String.prefix F (String c t)) eqn:EF.
      * apply prefix_spec in EF as [rest EF].
        destruct F as [|f F'] eqn:HF; [congruence|].
        simpl in EF. injection EF as -> ->.
        replace (String.length (String f F') - 1) with (String.length F')
          by (simpl; lia).
        rewrite replace_from_skip, drop_sapp. simpl.
        apply IH.
        -- rewrite length_sapp in Hlen. lia.
        -- rewrite <- P_not_over_F. cbn [PyStr.contains].
           simpl. rewrite H. apply orb_true_r.
      * cbn [PyStr.contains]. rewrite (IH t); [apply orb_true_r | lia | exact H].
Qed.

Lemma removal_keeps (s : string) :
  PyStr.contains P s = true ->
  PyStr.contains P (PyStr.replace_from 0 F "" s) = true.
Proof. apply (removal_keeps_bounded (String.length s)). lia. Qed.

End KeepsText.

Lemma rename_puts_run (s : string) :
  PyStr.contains "def send_query(" s = true ->
  PyStr.contains "def run("
    (PyStr.replace_from 0 "def send_query(" "def run(" s) = true.
Proof.
  induction s as [|c s IH]; intros H; [discriminate H|].
  cbn [PyStr.replace_from].
  destruct (String.prefix "def send_query(" (String c s)) eqn:E.
  - apply contains_spec. now exists "", (PyStr.replace_from 14 "def send_query(" "def run(" s).
  - cbn [PyStr.contains] in H. rewrite E in H. simpl in H.
    cbn [PyStr.contains]. rewrite (IH H). apply orb_true_r.
Qed.

Lemma sanitize_no_fence (implementation : string) :
  PyStr.contains "```" (sanitize implementation) = false.
Proof.
  unfold sanitize. apply rename_keeps_unfenced.
  destruct (PyStr.contains "```" (PyStr.strip _)) eqn:E; [|reflexivity].
  apply contains_strip in E. cbn [PyStr.replace] in E.
  now rewrite unfenced in E.
Qed.

Lemma sanitize_entry_point (implementation : string) :
  PyStr.contains "def send_query(" implementation = true ->
  PyStr.contains "def run(" (sanitize implementation) = true.
Proof.
  intros H. unfold sanitize. apply rename_puts_run.
  apply (strip_keeps "d" "ef send_query(" eq_refl eq_refl).
  apply (removal_keeps "d" "ef send_query(" "```");
    [discriminate | reflexivity | reflexivity |].
  apply (removal_keeps "d" "ef send_query(" "```python");
    [discriminate | reflexivity | reflexivity |].
  now apply (strip_keeps "d" "ef send_query(" eq_refl eq_refl).
Qed.

(** ** More on parameters and schemas *)

(** X1. Read back with the name and the required flag that the tool's
    schema holds, the OpenAI rendering of a String, a Number or an Array
    parameter gives the parameter itself; that of an Enum parameter gives
    the String parameter of the same name, description and flag. *)
Theorem openai_rendering_reads_back :
  forall p : parameter,
    parameter_from_openai_api (name p) (as_openai_info p) (required p)
    = Ok match p with
         | EnumParameter n d _ r => StringParameter n d r
         | _ => p
         end.
Proof. intros p. destruct p; reflexivity. Qed.

Lemma gemini_reads_back (p : parameter) :
  parameter_from_openai_api (name p) (as_gemini_tool p) (required p) = Ok p.
Proof.
  destruct p as [n d r | n d values r | n d r | n d r item_schema];
    try reflexivity.
  apply gemini_enum_reads_back.
Qed.

(** X2. The Gemini rendering, read back the same way, gives the
    parameter itself for each of the four variants. *)
Theorem gemini_rendering_reads_back :
  forall p : parameter,
    parameter_from_openai_api (name p) (as_gemini_tool p) (required p) = Ok p.
Proof.
  intros [n d r | n d values r | n d r | n d r item_schema].
  - exact (gemini_reads_back (StringParameter n d r)).
  - exact (gemini_reads_back (EnumParameter n d values r)).
  - exact (gemini_reads_back (NumberParameter n d r)).
  - exact (gemini_reads_back (ArrayParameter n d r item_schema)).
Qed.

(** X3. [from_standard_api] never looks at the entry "type": called on
    the class StringParameter with the standard schema of a parameter of
    any variant, it gives the String parameter of the same name,
    description and flag; called on the class EnumParameter it gives the
    parameter back for an Enum and raises KeyError 'values' for the
    other variants, whose schema has no such entry. *)
Theorem from_standard_api_trusts_the_caller :
  forall p : parameter,
    from_standard_api StringParameterClass (as_standard_api p)
    = Ok (StringParameter (name p) (description p) (required p))
    /\ from_standard_api EnumParameterClass (as_standard_api p)
       = match p with
         | EnumParameter _ _ _ _ => Ok p
         | _ => Raise (KeyError "values")
         end.
Proof.
  intros p. destruct p as [n d r | n d values r | n d r | n d r item_schema];
    split; try reflexivity.
  apply enum_round_trip.
Qed.

(** X4. A standard schema that lacks an entry is refused with the
    KeyError of the first entry missing, in the order name, description,
    values (for an Enum), required; the empty schema with that of
    "name". *)
Theorem from_standard_api_missing_entry :
  forall (cls : ParameterClass) (api_info : gmap string json),
    cls = StringParameterClass \/ cls = EnumParameterClass ->
    (api_info !! "name" = None ->
     from_standard_api cls api_info = Raise (KeyError "name"))
    /\ (forall n,
           api_info !! "name" = Some (JStr n) ->
           api_info !! "description" = None ->
           from_standard_api cls api_info = Raise (KeyError "description"))
    /\ (forall n d,
           api_info !! "name" = Some (JStr n) ->
           api_info !! "description" = Some (JStr d) ->
           (cls = EnumParameterClass ->
            api_info !! "values" = None ->
            from_standard_api cls api_info = Raise (KeyError "values"))
           /\ (cls = StringParameterClass ->
               api_info !! "required" = None ->
               from_standard_api cls api_info = Raise (KeyError "required"))
           /\ (forall values,
                  cls = EnumParameterClass ->
                  api_info !! "values" = Some (JList (JStr <$> values)) ->
                  api_info !! "required" = None ->
                  from_standard_api cls api_info
                  = Raise (KeyError "required"))).
Proof.
  intros cls api_info Hcls. unfold from_standard_api, getitem.
  split; [|split].
  - intros ->. now destruct Hcls as [-> | ->].
  - intros n -> ->. now destruct Hcls as [-> | ->].
  - intros n d -> ->. split; [|split].
    + intros -> ->. reflexivity.
    + intros -> ->. reflexivity.
    + intros values -> -> ->. cbn [bind as_str as_str_list].
      now rewrite as_strs_of_strings.
Qed.

Lemma from_standard_api_missing_entry_witness :
  from_standard_api StringParameterClass ∅ = Raise (KeyError "name")
  /\ from_standard_api EnumParameterClass
       {[ "name" := JStr "unit"; "description" := JStr "the unit" ]}
     = Raise (KeyError "values").
Proof.
  split.
  - refine (proj1 (from_standard_api_missing_entry StringParameterClass ∅
                     (or_introl eq_refl)) _).
    reflexivity.
  - refine (proj1 (proj2 (proj2 (from_standard_api_missing_entry
                     EnumParameterClass _ (or_intror eq_refl)))
                     "unit" "the unit" _ _) _ _); reflexivity.
Defined.

(** X5. [parameter_from_openai_api] on a schema that lacks an entry: with
    neither "enum" nor "type" it raises KeyError 'type', the empty schema
    included; with "enum" or a known type and no "description" it raises
    KeyError 'description'; an array with a description and no "items"
    raises KeyError 'items'. *)
Theorem parameter_from_openai_api_missing_entry :
  forall (parameter_name : string) (schema : gmap string json)
         (required : bool),
    (schema !! "enum" = None -> schema !! "type" = None ->
     parameter_from_openai_api parameter_name schema required
     = Raise (KeyError "type"))
    /\ (schema !! "description" = None ->
        (is_Some (schema !! "enum")
         \/ exists ty, schema !! "type" = Some (JStr ty)
                       /\ (ty = "string" \/ ty = "number" \/ ty = "array")) ->
        parameter_from_openai_api parameter_name schema required
        = Raise (KeyError "description"))
    /\ (forall d,
           schema !! "enum" = None ->
           schema !! "type" = Some (JStr "array") ->
           schema !! "description" = Some (JStr d) ->
           schema !! "items" = None ->
           parameter_from_openai_api parameter_name schema required
           = Raise (KeyError "items")).
Proof.
  intros pn schema req. unfold parameter_from_openai_api, has_key, getitem.
  split; [|split].
  - intros -> ->. reflexivity.
  - intros -> [[v ->] | (ty & Ht & Hty)]; [reflexivity|].
    destruct (schema !! "enum"); [reflexivity|]. rewrite Ht.
    now destruct Hty as [-> | [-> | ->]].
  - intros d -> -> -> ->. reflexivity.
Qed.

Lemma parameter_from_openai_api_missing_entry_witness :
  parameter_from_openai_api "size" ∅ true = Raise (KeyError "type")
  /\ parameter_from_openai_api "size" {[ "type" := JStr "number" ]} true
     = Raise (KeyError "description").
Proof.
  split.
  - refine (proj1 (parameter_from_openai_api_missing_entry "size" ∅ true)
              _ _); reflexivity.
  - refine (proj1 (proj2 (parameter_from_openai_api_missing_entry "size"
              {[ "type" := JStr "number" ]} true)) _ _); [reflexivity|].
    right. exists "number". split; [reflexivity | right; left; reflexivity].
Defined.

(** ** More on tools *)

Lemma properties_snoc (ps : list parameter) (p : parameter) :
  Tool.properties (ps ++ [p])%list
  = <[name p := JDict (as_openai_info p)]> (Tool.properties ps).
Proof. unfold Tool.properties. now rewrite foldl_snoc. Qed.

Lemma properties_distinct (ps : list parameter) :
  NoDup (name <$> ps) ->
  forall p, In p ps ->
    Tool.properties ps !! name p = Some (JDict (as_openai_info p)).
Proof.
  induction ps as [|a ps IH] using rev_ind; intros Hnd p Hin; [easy|].
  rewrite properties_snoc. rewrite fmap_app in Hnd.
  apply NoDup_app in Hnd as (Hps & Hfresh & _).
  apply in_app_or in Hin as [Hin | [<- | []]].
  - rewrite lookup_insert_ne; [now apply IH|].
    intros Heq. apply (Hfresh (name p)).
    + apply list_elem_of_fmap. exists p. split; [reflexivity|].
      now apply list_elem_of_In.
    + apply list_elem_of_fmap. exists a.
      split; [now symmetry | apply list_elem_of_here].
  - apply lookup_insert_eq.
Qed.

(** X6. In the tool's OpenAI schema, a parameter that comes later
    replaces under "properties" an earlier one of the same name; when the
    names of the parameters are distinct, every parameter is found under
    its name, as its own OpenAI rendering. *)
Theorem properties_hold_each_parameter :
  (forall ps p,
      Tool.properties (ps ++ [p])%list !! name p
      = Some (JDict (as_openai_info p)))
  /\ (forall ps,
         NoDup (name <$> ps) ->
         forall p, In p ps ->
           Tool.properties ps !! name p = Some (JDict (as_openai_info p))).
Proof.
  split.
  - intros ps p. rewrite properties_snoc. apply lookup_insert_eq.
  - exact properties_distinct.
Qed.

Lemma properties_hold_each_parameter_witness :
  NoDup (name <$> [StringParameter "city" "where" true;
                   NumberParameter "days" "how long" false])
  /\ Tool.properties [StringParameter "city" "where" true;
                      NumberParameter "days" "how long" false] !! "days"
     = Some (JDict (as_openai_info (NumberParameter "days" "how long" false))).
Proof.
  assert (H : NoDup (name <$> [StringParameter "city" "where" true;
                               NumberParameter "days" "how long" false])).
  { apply NoDup_cons_2; [|apply NoDup_singleton].
    rewrite list_elem_of_singleton. discriminate. }
  split; [exact H|].
  refine (proj2 properties_hold_each_parameter _ H
            (NumberParameter "days" "how long" false) _).
  simpl. auto.
Defined.

(** X7. The flat schema of a tool holds the same name, description,
    properties and list of required names as the nested OpenAI schema;
    every name in the list of required names is a key of the properties;
    and the flat schema has the entry "output_schema" exactly when the
    tool has an output schema. *)
Theorem flat_schema_mirrors_nested_schema :
  forall tool : Tool.t,
    let props := Tool.properties (Tool.parameters tool) in
    let req := Tool.required_names (Tool.parameters tool) in
    Tool.as_openai_info tool !! "function"
    = Some (JDict
        {[ "name" := JStr (Tool.name tool);
           "description" := JStr (Tool.description tool);
           "parameters" := JDict
             {[ "type" := JStr "object";
                "properties" := JDict props;
                "required" := JList req ]} ]})
    /\ Tool.as_llama_schema tool !! "name" = Some (JStr (Tool.name tool))
    /\ Tool.as_llama_schema tool !! "description"
       = Some (JStr (Tool.description tool))
    /\ Tool.as_llama_schema tool !! "parameters" = Some (JDict props)
    /\ Tool.as_llama_schema tool !! "required" = Some (JList req)
    /\ Tool.as_llama_schema tool !! "output_schema" = Tool.output_schema tool
    /\ (forall n, In (JStr n) req -> is_Some (props !! n)).
Proof.
  intros tool props req. unfold Tool.as_llama_schema.
  split; [reflexivity|].
  destruct (Tool.output_schema tool); repeat split;
    intros n Hn; apply properties_keys;
    apply required_names_spec in Hn as (p & Hp & Hname & _); eauto.
Qed.

(** ** More on the texts of a tool and on the feasibility check *)

Section TextFacts.

Variable json_dumps : option nat -> json -> string.

Lemma contains_here (sub s : string) : PyStr.contains sub (sub +:+ s) = true.
Proof. apply contains_spec. now exists "", s. Qed.

Lemma contains_left (sub a b : string) :
  PyStr.contains sub a = true -> PyStr.contains sub (a +:+ b) = true.
Proof.
  rewrite !contains_spec. intros (x & y & ->). exists x, (y +:+ b).
  now rewrite !sapp_assoc.
Qed.

Lemma contains_right (sub a b : string) :
  PyStr.contains sub b = true -> PyStr.contains sub (a +:+ b) = true.
Proof.
  rewrite !contains_spec. intros (x & y & ->). exists (a +:+ x), y.
  now rewrite !sapp_assoc.
Qed.

Lemma contains_trans (a b c : string) :
  PyStr.contains a b = true -> PyStr.contains b c = true ->
  PyStr.contains a c = true.
Proof.
  rewrite !contains_spec. intros (x & y & ->) (x' & y' & ->).
  exists (x' +:+ x), (y +:+ y'). now rewrite !sapp_assoc.
Qed.

Lemma parameter_lines_hold (render : parameter -> string)
    (ps : list parameter) (p : parameter) :
  In p ps ->
  PyStr.contains (TAB +:+ render p +:+ NL) (Tool.parameter_lines render ps)
  = true.
Proof.
  induction ps as [|a ps IH]; intros Hin; [destruct Hin|].
  cbn [Tool.parameter_lines]. destruct Hin as [-> | Hin].
  - apply contains_spec. exists "", (Tool.parameter_lines render ps).
    simpl. now rewrite !sapp_assoc.
  - do 3 apply contains_right. now apply IH.
Qed.

Lemma tool_texts_hold (tool : Tool.t) (p : parameter) :
  In p (Tool.parameters tool) ->
  PyStr.contains (TAB +:+ as_natural_language json_dumps p +:+ NL)
    (Tool.as_natural_language json_dumps tool) = true
  /\ PyStr.contains (TAB +:+ as_documented_python json_dumps p +:+ NL)
       (Tool.as_documented_python json_dumps tool) = true.
Proof.
  unfold Tool.as_natural_language, Tool.as_documented_python.
  intros Hin. destruct (Tool.parameters tool) as [|a ps] eqn:E;
    [destruct Hin|].
  split; apply contains_left, contains_right;
    now apply parameter_lines_hold.
Qed.

(** X8. Both texts of a tool hold, for each of its parameters, a line of
    its own with the text of the parameter (a tab, the text, a line
    feed); for a tool without parameters they say "No parameters.". *)
Theorem tool_texts_list_every_parameter :
  forall tool : Tool.t,
    (forall p, In p (Tool.parameters tool) ->
       PyStr.contains (TAB +:+ as_natural_language json_dumps p +:+ NL)
         (Tool.as_natural_language json_dumps tool) = true
       /\ PyStr.contains (TAB +:+ as_documented_python json_dumps p +:+ NL)
            (Tool.as_documented_python json_dumps tool) = true)
    /\ (Tool.parameters tool = [] ->
        PyStr.contains "No parameters."
          (Tool.as_natural_language json_dumps tool) = true
        /\ PyStr.contains "No parameters."
             (Tool.as_documented_python json_dumps tool) = true).
Proof.
  intros tool. split; [apply tool_texts_hold|].
  unfold Tool.as_natural_language, Tool.as_documented_python.
  intros ->. split; apply contains_left, contains_right; reflexivity.
Qed.

Lemma documented_tools_hold (tools : list Tool.t) (tool : Tool.t) :
  In tool tools ->
  PyStr.contains (Tool.as_documented_python json_dumps tool)
    (documented_tools json_dumps tools) = true.
Proof.
  induction tools as [|a tools IH]; intros Hin; [destruct Hin|].
  cbn [documented_tools]. destruct Hin as [-> | Hin].
  - apply contains_here.
  - do 3 apply contains_right. now apply IH.
Qed.

(** X9. The message put to the backend holds the protocol document,
    and the documented text of every tool given, hence a line for every
    parameter of every tool; with no tool it ends in "No additional
    functions provided". *)
Theorem checker_message_holds_document_and_tools :
  forall (protocol_document : string) (tools : list Tool.t),
    let message := checker_message json_dumps protocol_document tools in
    PyStr.contains protocol_document message = true
    /\ (forall tool, In tool tools ->
          PyStr.contains (Tool.as_documented_python json_dumps tool) message
          = true
          /\ forall p, In p (Tool.parameters tool) ->
               PyStr.contains
                 (TAB +:+ as_documented_python json_dumps p +:+ NL) message
               = true)
    /\ (tools = [] ->
        exists before,
          message = before +:+ "No additional functions provided").
Proof.
  intros doc tools message. subst message. unfold checker_message.
  assert (Hdoc : forall rest,
            PyStr.contains doc
              (("Protocol document:" +:+ NL +:+ NL +:+ doc +:+ NL +:+ NL
                  +:+ "Functions that the implementer will have access to:"
                  +:+ NL +:+ NL) +:+ rest) = true).
  { intros rest. apply contains_left. do 3 apply contains_right.
    apply contains_here. }
  split; [|split].
  - destruct tools; apply Hdoc.
  - intros tool Hin. destruct tools as [|a tools]; [destruct Hin|].
    set (header := _ +:+ _ +:+ _ +:+ doc +:+ _).
    assert (Ht : PyStr.contains (Tool.as_documented_python json_dumps tool)
                   (header +:+ documented_tools json_dumps (a :: tools))
                 = true)
      by now apply contains_right, documented_tools_hold.
    split; [exact Ht|]. intros p Hp.
    refine (contains_trans _ _ _ _ Ht).
    now apply tool_texts_hold.
  - intros ->. eexists. reflexivity.
Qed.

End TextFacts.

Lemma tool_texts_list_every_parameter_witness :
  PyStr.contains
    (TAB +:+ as_documented_python (fun _ _ => "")
               (NumberParameter "by" "the divisor" true) +:+ NL)
    (Tool.as_documented_python (fun _ _ => "") dividing_tool) = true.
Proof.
  refine (proj2 (proj1 (tool_texts_list_every_parameter (fun _ _ => "")
                          dividing_tool) _ _)).
  simpl. auto.
Defined.

Lemma checker_message_witness :
  PyStr.contains (Tool.as_documented_python (fun _ _ => "") dividing_tool)
    (checker_message (fun _ _ => "") "one line in, one line out"
       [dividing_tool]) = true.
Proof.
  refine (proj1 (proj1 (proj2 (checker_message_holds_document_and_tools
            (fun _ _ => "") "one line in, one line out" [dividing_tool]))
            dividing_tool _)).
  simpl. auto.
Defined.

Section DecisionFacts.

Lemma lstrip_blank_head (c : ascii) (w : string) :
  PyStr.lstrip (String c w) = "" -> PyStr.isspace c = true /\ PyStr.lstrip w = "".
Proof. simpl. destruct (PyStr.isspace c); [auto | discriminate]. Qed.

Lemma lstrip_blank_sapp (w x : string) :
  PyStr.lstrip w = "" -> PyStr.lstrip (w +:+ x) = PyStr.lstrip x.
Proof.
  induction w as [|c w IH]; intros H; [reflexivity|].
  apply lstrip_blank_head in H as [Hc Hw]. simpl. rewrite Hc. auto.
Qed.

Lemma rstrip_blank (w : string) : PyStr.lstrip w = "" -> PyStr.rstrip w = "".
Proof.
  induction w as [|c w IH]; intros H; [reflexivity|].
  apply lstrip_blank_head in H as [Hc Hw]. simpl. now rewrite (IH Hw), Hc.
Qed.

(** Whitespace around a text does not change what [strip] gives. *)
Lemma strip_padded (w1 s w2 : string) :
  PyStr.lstrip w1 = "" -> PyStr.lstrip w2 = "" ->
  PyStr.strip (w1 +:+ s +:+ w2) = PyStr.strip s.
Proof.
  intros H1 H2. unfold PyStr.strip.
  rewrite rstrip_sapp_gen, (rstrip_sapp_gen s w2), (rstrip_blank w2 H2).
  destruct (PyStr.rstrip s) as [|c r].
  - now rewrite (rstrip_blank w1 H1).
  - now apply lstrip_blank_sapp.
Qed.

End DecisionFacts.

(** A text of fewer than three code points cannot fold to one that
    holds "yes": U+0130 folds to two code points, neither of them a
    letter of "yes". *)
Lemma short_text_holds_no_yes (t : list PyText.code_point) :
  length t < 3 ->
  PyText.contains (PyText.of_string "yes")
    (PyText.slice_last 10 (PyText.lower t)) = false.
Proof.
  intros H. destruct t as [|a [|b [|c t]]]; [| | |simpl in H; lia];
    try destruct a; try destruct b; unfold PyText.slice_last;
    cbn [PyText.lower PyText.lower_point app length Nat.sub skipn
         PyText.of_string PyText.contains PyText.prefix PyText.eqb];
    repeat match goal with
           | |- context [Ascii.eqb ?a (PyStr.lower_char ?x)] =>
               destruct (Ascii.eqb a (PyStr.lower_char x))
           end;
    reflexivity.
Qed.

(** X10. The feasibility check does not depend on whitespace around the
    reply nor on the case of its letters: two backends whose replies
    differ only in these give the same answer. *)
Theorem feasibility_ignores_padding_and_case :
  forall (Conversation1 Conversation2 : Type)
         (new_conversation1 : string -> list Tool.t -> string -> Conversation1)
         (chat1 :
            Conversation1 -> string -> list PyText.code_point * Conversation1)
         (new_conversation2 : string -> list Tool.t -> string -> Conversation2)
         (chat2 :
            Conversation2 -> string -> list PyText.code_point * Conversation2)
         (json_dumps : option nat -> json -> string) (prompt : string)
         (protocol_document : string) (tools : list Tool.t)
         (before core after : list PyText.code_point),
    checker_reply new_conversation2 chat2 json_dumps prompt
      protocol_document tools
    = (before ++ core ++ after)%list ->
    PyText.lstrip before = [] -> PyText.lstrip after = [] ->
    PyText.lower core
    = PyText.lower (checker_reply new_conversation1 chat1 json_dumps prompt
                      protocol_document tools) ->
    ReceiverProtocolChecker_call new_conversation2 chat2 json_dumps prompt
      protocol_document tools
    = ReceiverProtocolChecker_call new_conversation1 chat1 json_dumps prompt
        protocol_document tools.
Proof.
  intros C1 C2 nc1 chat1 nc2 chat2 dumps prompt doc tools before core after
    Hreply Hb Ha Hcore.
  unfold ReceiverProtocolChecker_call. rewrite Hreply, <- Hcore.
  rewrite !lower_app. f_equal. f_equal.
  apply text_strip_padded; now rewrite lower_lstrip, ?Hb, ?Ha.
Qed.

Lemma feasibility_ignores_padding_and_case_witness :
  ReceiverProtocolChecker_call (fun _ _ _ => tt)
    (fun c _ => (PyText.of_string "  It can be done: YES
", c)) (fun _ _ => "") "" "protocol" []
  = ReceiverProtocolChecker_call (fun _ _ _ => tt)
      (fun c _ => (PyText.of_string "it can be done: yes", c))
      (fun _ _ => "") "" "protocol" [].
Proof.
  apply (feasibility_ignores_padding_and_case unit unit _ _ _ _ _ _ _ _
           (PyText.of_string "  ") (PyText.of_string "It can be done: YES")
           (PyText.of_string "
")); reflexivity.
Defined.

(** X11. A reply that has fewer than three characters once trimmed, the
    empty reply and the reply of whitespace alone included, is answered
    with false. *)
Theorem short_reply_is_not_feasible :
  forall (Conversation : Type)
         (new_conversation : string -> list Tool.t -> string -> Conversation)
         (chat :
            Conversation -> string -> list PyText.code_point * Conversation)
         (json_dumps : option nat -> json -> string) (prompt : string)
         (protocol_document : string) (tools : list Tool.t),
    length
      (PyText.strip (checker_reply new_conversation chat json_dumps prompt
                       protocol_document tools)) < 3 ->
    ReceiverProtocolChecker_call new_conversation chat json_dumps prompt
      protocol_document tools = false.
Proof.
  intros C nc chat dumps prompt doc tools Hlen.
  unfold ReceiverProtocolChecker_call. rewrite lower_strip.
  now apply short_text_holds_no_yes.
Qed.

Lemma short_reply_is_not_feasible_witness :
  ReceiverProtocolChecker_call (fun _ _ _ => tt)
    (fun c _ => (PyText.of_string "  ok
", c)) (fun _ _ => "") "" "protocol" [] = false.
Proof.
  apply (short_reply_is_not_feasible unit). simpl. lia.
Defined.

(** ** More on the negotiator *)

Section NegotiatorSteps.

Context {Conversation Party TaskSchema Metadata Protocol : Type}.
Variable new_conversation : string -> list Tool.t -> string -> Conversation.
Variable chat : Conversation -> string -> string * Conversation.
Variable extract_substring : string -> string -> string -> option string.
Variable extract_metadata : string -> Metadata.
Variable mkProtocol : string -> list string -> Metadata -> Protocol.
Variable from_taskschemalike : json -> TaskSchema.
Variable str_task_schema : TaskSchema -> string.
Variable TASK_NEGOTIATOR_PROMPT : string.
Variable callback : Party -> string -> gmap string string * Party.

#[local] Abbreviation rounds :=
  (negotiation_rounds chat extract_substring extract_metadata mkProtocol
     callback).

(** X12. When a round's reply holds no block and the other party answers
    with the status "success", the body of its answer is, unchanged, the
    message of the next round, and the loop goes on with the rounds that
    remain. *)
Theorem party_answer_is_forwarded :
  forall (n : nat) (conversation conversation' : Conversation)
         (party party' : Party) (other_message message : string)
         (response : gmap string string) (body : string),
    chat conversation other_message = (message, conversation') ->
    extract_substring message "<FINALPROTOCOL>" "</FINALPROTOCOL>" = None ->
    callback party message = (response, party') ->
    response !! "status" = Some "success" ->
    response !! "body" = Some body ->
    let this :=
      {| outgoing := other_message; reply := message; extracted := None |} in
    let rest :=
      negotiation_rounds chat extract_substring extract_metadata mkProtocol
        callback n conversation' party' body in
    negotiation_rounds chat extract_substring extract_metadata mkProtocol
      callback (S n) conversation party other_message
    = (fst rest, this :: snd rest)
    /\ (0 < n ->
        exists next later, snd rest = next :: later /\ outgoing next = body).
Proof.
  intros n c c' p p' m message response body Hchat Hblock Hcb Hs Hb this rest.
  split.
  - cbn [negotiation_rounds]. rewrite Hchat, Hblock, Hcb.
    unfold next_message. rewrite (getitem_some _ _ _ Hs). cbn [bind].
    rewrite String.eqb_refl, (getitem_some _ _ _ Hb).
    fold rest. now destruct rest.
  - intros Hn. destruct n as [|n]; [lia|].
    destruct (first_round_outgoing chat extract_substring extract_metadata
                mkProtocol callback n c' p' body)
      as (next & later & Hsnd & Ho & _).
    exists next, later. split; assumption.
Qed.

(** X13. A response of the other party that lacks the entry the code
    reads ends the negotiation with a KeyError in that very round: that
    of "status" when there is no status, of "body" when the status is
    "success", of "message" otherwise. *)
Theorem malformed_response_ends_negotiation :
  forall (n : nat) (conversation conversation' : Conversation)
         (party party' : Party) (other_message message : string)
         (response : gmap string string),
    chat conversation other_message = (message, conversation') ->
    extract_substring message "<FINALPROTOCOL>" "</FINALPROTOCOL>" = None ->
    callback party message = (response, party') ->
    let this :=
      {| outgoing := other_message; reply := message; extracted := None |} in
    let run :=
      negotiation_rounds chat extract_substring extract_metadata mkProtocol
        callback (S n) conversation party other_message in
    (response !! "status" = None -> run = (Raise (KeyError "status"), [this]))
    /\ (response !! "status" = Some "success" ->
        response !! "body" = None ->
        run = (Raise (KeyError "body"), [this]))
    /\ (forall status,
           response !! "status" = Some status -> status <> "success" ->
           response !! "message" = None ->
           run = (Raise (KeyError "message"), [this])).
Proof.
  intros n c c' p p' m message response Hchat Hblock Hcb this run.
  subst run. cbn [negotiation_rounds]. rewrite Hchat, Hblock, Hcb.
  unfold next_message, getitem. split; [|split].
  - now intros ->.
  - now intros -> ->.
  - intros status -> Hne ->. cbn [bind].
    apply String.eqb_neq in Hne. now rewrite Hne.
Qed.

(** A run that does not end with [None] after all its rounds is the run
    of every greater bound. *)
Lemma rounds_settled (n n' : nat) (conversation : Conversation)
    (party : Party) (other_message : string) :
  n <= n' ->
  fst (rounds n conversation party other_message) <> Ok None ->
  rounds n' conversation party other_message
  = rounds n conversation party other_message.
Proof.
  revert n' conversation party other_message.
  induction n as [|n IH]; intros n' c p m Hle Hres; [now destruct Hres|].
  destruct n' as [|n']; [lia|]. cbn [negotiation_rounds] in *.
  destruct (chat c m) as [message c'].
  destruct (extract_substring message _ _); [reflexivity|].
  destruct (callback p message) as [response p'].
  destruct (next_message response) as [m'|e]; [|reflexivity].
  rewrite (IH n' c' p' m'); [reflexivity | lia |].
  destruct (rounds n c' p' m'). exact Hres.
Qed.

(** X14. A greater bound on the rounds changes nothing of a negotiation
    that has found a protocol: the same protocol is returned after the
    same rounds. *)
Theorem greater_bound_keeps_agreement :
  forall (max_rounds max_rounds' : nat) (task_schema : json) (party : Party)
         (additional_info : string) (found : Protocol) (made : list round),
    max_rounds <= max_rounds' ->
    negotiate_protocol_for_task new_conversation chat extract_substring
      extract_metadata mkProtocol from_taskschemalike str_task_schema
      TASK_NEGOTIATOR_PROMPT callback max_rounds task_schema party
      additional_info
    = (Ok (Some found), made) ->
    negotiate_protocol_for_task new_conversation chat extract_substring
      extract_metadata mkProtocol from_taskschemalike str_task_schema
      TASK_NEGOTIATOR_PROMPT callback max_rounds' task_schema party
      additional_info
    = (Ok (Some found), made).
Proof.
  intros R R' task_schema party info found made Hle H.
  unfold negotiate_protocol_for_task in *.
  rewrite (rounds_settled R R'); [exact H | exact Hle |].
  rewrite H. discriminate.
Qed.

End NegotiatorSteps.

(** X15. When the reply of the backend to the greeting holds a block,
    the negotiation ends in its first round with the protocol made from
    that block, whatever the other party and the bound (of at least one
    round) are: the party is not asked, and the result does not depend
    on it. *)
Theorem first_block_needs_no_party :
  forall (Conversation Party TaskSchema Metadata Protocol : Type)
         (new_conversation : string -> list Tool.t -> string -> Conversation)
         (chat : Conversation -> string -> string * Conversation)
         (extract_substring : string -> string -> string -> option string)
         (extract_metadata : string -> Metadata)
         (mkProtocol : string -> list string -> Metadata -> Protocol)
         (from_taskschemalike : json -> TaskSchema)
         (str_task_schema : TaskSchema -> string)
         (TASK_NEGOTIATOR_PROMPT : string)
         (callback : Party -> string -> gmap string string * Party)
         (max_rounds : nat) (task_schema : json) (party : Party)
         (additional_info : string) (protocol : string),
    let prompt :=
      TASK_NEGOTIATOR_PROMPT +:+ NL
        +:+ "The JSON schema of the task is the following:" +:+ NL +:+ NL
        +:+ str_task_schema (from_taskschemalike task_schema) in
    let conversation :=
      new_conversation
        match additional_info with
        | EmptyString => prompt
        | _ => prompt +:+ NL +:+ NL +:+ additional_info
        end [] "negotiation" in
    let first_reply := fst (chat conversation "Hello! How may I help you?") in
    extract_substring first_reply "<FINALPROTOCOL>" "</FINALPROTOCOL>"
    = Some protocol ->
    negotiate_protocol_for_task new_conversation chat extract_substring
      extract_metadata mkProtocol from_taskschemalike str_task_schema
      TASK_NEGOTIATOR_PROMPT callback (S max_rounds) task_schema party
      additional_info
    = (Ok (Some (mkProtocol protocol [] (extract_metadata protocol))),
       [ {| outgoing := "Hello! How may I help you?";
            reply := first_reply;
            extracted := Some protocol |} ]).
Proof.
  intros C P T M Pr nc chat extract meta mk from str prompt0 cb
    R task_schema party info protocol prompt conversation first_reply H.
  unfold negotiate_protocol_for_task. fold prompt. fold conversation.
  cbn [negotiation_rounds]. subst first_reply.
  destruct (chat conversation "Hello! How may I help you?") as [message c'].
  cbn [fst] in H. now rewrite H.
Qed.

Lemma party_answer_is_forwarded_witness :
  negotiation_rounds rambling_chat extract_substring_model (fun _ => tt)
    (fun document _ _ => document) agreeing_party 2 0 tt
    "Hello! How may I help you?"
  = (Ok None,
     [ {| outgoing := "Hello! How may I help you?";
          reply := "Let me think about it a little longer.";
          extracted := None |};
       {| outgoing := "That suits me.";
          reply := "Let me think about it a little longer.";
          extracted := None |} ]).
Proof.
  refine (eq_trans (proj1
    (party_answer_is_forwarded rambling_chat extract_substring_model
       (fun _ => tt) (fun document _ _ => document) agreeing_party 1 0 1 tt tt
       "Hello! How may I help you?" "Let me think about it a little longer."
       {[ "status" := "success"; "body" := "That suits me." ]}
       "That suits me." _ _ _ _ _)) _);
    reflexivity.
Defined.

Lemma malformed_response_ends_negotiation_witness :
  negotiation_rounds rambling_chat extract_substring_model (fun _ => tt)
    (fun document _ _ => document) mute_party 3 0 tt
    "Hello! How may I help you?"
  = (Raise (KeyError "body"),
     [ {| outgoing := "Hello! How may I help you?";
          reply := "Let me think about it a little longer.";
          extracted := None |} ]).
Proof.
  refine (proj1 (proj2
    (malformed_response_ends_negotiation rambling_chat extract_substring_model
       (fun _ => tt) (fun document _ _ => document) mute_party 2 0 1 tt tt
       "Hello! How may I help you?" "Let me think about it a little longer."
       {[ "status" := "success" ]} _ _ _)) _ _);
    reflexivity.
Defined.

Lemma greater_bound_keeps_agreement_witness :
  exists made,
    negotiate_protocol_for_task (fun _ _ _ => 0) settling_chat
      extract_substring_model (fun _ => tt) (fun document _ _ => document)
      (fun _ => tt) (fun _ => "") "" agreeing_party 2 JNull tt ""
    = (Ok (Some "one line in, one line out"), made)
    /\ negotiate_protocol_for_task (fun _ _ _ => 0) settling_chat
         extract_substring_model (fun _ => tt) (fun document _ _ => document)
         (fun _ => tt) (fun _ => "") "" agreeing_party 7 JNull tt ""
       = (Ok (Some "one line in, one line out"), made).
Proof.
  eexists. split; [reflexivity|].
  apply (greater_bound_keeps_agreement (fun _ _ _ => 0) settling_chat
           extract_substring_model (fun _ => tt)
           (fun document _ _ => document) (fun _ => tt) (fun _ => "") ""
           agreeing_party 2 7); [lia | reflexivity].
Defined.

Lemma first_block_needs_no_party_witness :
  negotiate_protocol_for_task (fun _ _ _ => 1) settling_chat
    extract_substring_model (fun _ => tt) (fun document _ _ => document)
    (fun _ => tt) (fun _ => "") "" unreachable_party 3 JNull tt ""
  = (Ok (Some "one line in, one line out"),
     [ {| outgoing := "Hello! How may I help you?";
          reply :=
            "Agreed. <FINALPROTOCOL>one line in, one line out</FINALPROTOCOL>";
          extracted := Some "one line in, one line out" |} ]).
Proof.
  apply (first_block_needs_no_party nat unit unit unit string
           (fun _ _ _ => 1) settling_chat extract_substring_model
           (fun _ => tt) (fun document _ _ => document) (fun _ => tt)
           (fun _ => "") "" unreachable_party 2 JNull tt ""
           "one line in, one line out").
  reflexivity.
Defined.

(** ** More on the programmer *)

Section ProgrammerSteps.

Context {Conversation : Type}.
Variable new_conversation : string -> list Tool.t -> string -> Conversation.
Variable chat : Conversation -> string -> string * Conversation.
Variable extract_substring : string -> string -> string -> option string.
Variable json_dumps : option nat -> json -> string.
Variable TASK_PROGRAMMER_PROMPT : string.

Lemma attempts_sent (n : nat) (conversation : Conversation)
    (message : string) (binding : option (option string)) :
  (n = 0 /\ snd (attempts chat extract_substring n conversation message
                   binding) = [])
  \/ exists k,
       k < n
       /\ snd (attempts chat extract_substring n conversation message binding)
          = message :: replicate k NUDGE.
Proof.
  revert conversation message binding.
  induction n as [|n IH]; intros c m b; [now left|]. right.
  cbn [attempts]. destruct (chat c m) as [reply c'].
  destruct (extract_substring reply _ _).
  - exists 0. split; [lia | reflexivity].
  - specialize (IH c' NUDGE (Some None)).
    destruct (attempts chat extract_substring n c' NUDGE (Some None))
      as [final later].
    simpl in *. destruct IH as [[-> ->] | (k & Hk & ->)].
    + exists 0. split; [lia | reflexivity].
    + exists (S k). split; [lia | reflexivity].
Qed.

(** X16. The messages the programmer sends are the task message (the
    schema and the protocol document) and then nothing but the request
    for an implementation between the tags; there are at most as many
    messages as attempts, and none without an attempt. *)
Theorem programmer_sends_task_then_reminders :
  forall (num_attempts : nat) (task_schema : json)
         (protocol_document : string),
    let sent :=
      snd (SenderProgrammer_call new_conversation chat extract_substring
             json_dumps TASK_PROGRAMMER_PROMPT num_attempts task_schema
             protocol_document) in
    (num_attempts = 0 /\ sent = [])
    \/ exists k,
         k < num_attempts
         /\ sent
            = ("JSON schema:" +:+ NL +:+ NL +:+ json_dumps None task_schema
                 +:+ NL +:+ NL +:+ "Protocol document:" +:+ NL +:+ NL
                 +:+ protocol_document)
              :: replicate k NUDGE.
Proof.
  intros num_attempts task_schema protocol_document.
  unfold SenderProgrammer_call.
  set (conversation := new_conversation _ _ _). set (message := _ +:+ _).
  pose proof (attempts_sent num_attempts conversation message None) as H.
  destruct (attempts chat extract_substring num_attempts conversation
              message None) as [[[implementation|]|] sent]; exact H.
Qed.

Lemma attempts_settled (n n' : nat) (conversation : Conversation)
    (message implementation : string) (binding binding' : option (option string))
    (sent : list string) :
  n <= n' ->
  (forall i, binding <> Some (Some i)) ->
  attempts chat extract_substring n conversation message binding
  = (Some (Some implementation), sent) ->
  attempts chat extract_substring n' conversation message binding'
  = (Some (Some implementation), sent).
Proof.
  revert n' conversation message binding binding' sent.
  induction n as [|n IH]; intros n' c m b b' sent Hle Hb H.
  - simpl in H. injection H as H _. now destruct (Hb implementation).
  - destruct n' as [|n']; [lia|]. cbn [attempts] in *.
    destruct (chat c m) as [reply c'].
    destruct (extract_substring reply _ _) as [found|]; [exact H|].
    destruct (attempts chat extract_substring n c' NUDGE (Some None))
      as [final later] eqn:E.
    injection H as -> <-.
    rewrite (IH n' c' NUDGE (Some None) (Some None) later); try easy. lia.
Qed.

(** X19. More attempts change nothing of a synthesis that has
    succeeded: the same text is returned after the same messages. *)
Theorem more_attempts_keep_the_adapter :
  forall (num_attempts num_attempts' : nat) (task_schema : json)
         (protocol_document adapter : string) (sent : list string),
    num_attempts <= num_attempts' ->
    SenderProgrammer_call new_conversation chat extract_substring json_dumps
      TASK_PROGRAMMER_PROMPT num_attempts task_schema protocol_document
    = (Ok adapter, sent) ->
    SenderProgrammer_call new_conversation chat extract_substring json_dumps
      TASK_PROGRAMMER_PROMPT num_attempts' task_schema protocol_document
    = (Ok adapter, sent).
Proof.
  intros N N' task_schema doc adapter sent Hle.
  unfold SenderProgrammer_call.
  set (conversation := new_conversation _ _ _). set (message := _ +:+ _).
  destruct (attempts chat extract_substring N conversation message None)
    as [[[implementation|]|] sent0] eqn:E; intros H; try discriminate H.
  injection H as <- <-.
  now rewrite (attempts_settled N N' conversation message implementation
                 None None sent0 Hle).
Qed.

End ProgrammerSteps.

Section SanitizeMore.

Lemma replace_absent (old new s : string) :
  PyStr.contains old s = false -> PyStr.replace_from 0 old new s = s.
Proof.
  induction s as [|c s IH]; intros H; [reflexivity|].
  cbn [PyStr.contains] in H. apply orb_false_iff in H as [Hp Hs].
  cbn [PyStr.replace_from]. rewrite Hp. now rewrite IH.
Qed.

Lemma lstrip_lstrip (s : string) :
  PyStr.lstrip (PyStr.lstrip s) = PyStr.lstrip s.
Proof.
  induction s as [|c s IH]; [reflexivity|]. simpl.
  destruct (PyStr.isspace c) eqn:E; [exact IH|]. simpl. now rewrite E.
Qed.

Lemma rstrip_tail (c : ascii) (s : string) :
  PyStr.rstrip (String c s) = String c s -> s <> "" -> PyStr.rstrip s = s.
Proof.
  simpl. destruct (PyStr.rstrip s) as [|x r] eqn:E.
  - destruct (PyStr.isspace c); intros H Hne; [discriminate H|].
    injection H as <-. now destruct Hne.
  - intros H _. now injection H.
Qed.

Lemma rstrip_cons (c : ascii) (s : string) :
  PyStr.rstrip s = s -> s <> "" -> PyStr.rstrip (String c s) = String c s.
Proof. intros H Hne. simpl. rewrite H. now destruct s. Qed.

Lemma rstrip_rstrip (s : string) :
  PyStr.rstrip (PyStr.rstrip s) = PyStr.rstrip s.
Proof.
  induction s as [|c s IH]; [reflexivity|]. simpl.
  destruct (PyStr.rstrip s) as [|x r] eqn:E.
  - destruct (PyStr.isspace c) eqn:Ec; [reflexivity|]. simpl. now rewrite Ec.
  - now apply rstrip_cons.
Qed.

(** Trimming on the left keeps a text trimmed on the right. *)
Lemma rstrip_lstrip (s : string) :
  PyStr.rstrip s = s -> PyStr.rstrip (PyStr.lstrip s) = PyStr.lstrip s.
Proof.
  induction s as [|c s IH]; intros H; [reflexivity|]. simpl.
  destruct (PyStr.isspace c) eqn:Ec; [|exact H].
  destruct s as [|x s']; [reflexivity|].
  apply IH. now apply (rstrip_tail c).
Qed.

Lemma strip_trimmed (s : string) :
  PyStr.lstrip (PyStr.strip s) = PyStr.strip s
  /\ PyStr.rstrip (PyStr.strip s) = PyStr.strip s.
Proof.
  unfold PyStr.strip. split; [apply lstrip_lstrip|].
  apply rstrip_lstrip, rstrip_rstrip.
Qed.

Lemma strip_of_trimmed (s : string) :
  PyStr.lstrip s = s -> PyStr.rstrip s = s -> PyStr.strip s = s.
Proof. intros Hl Hr. unfold PyStr.strip. now rewrite Hr, Hl. Qed.

Lemma strip_strip (s : string) : PyStr.strip (PyStr.strip s) = PyStr.strip s.
Proof. apply strip_of_trimmed; apply strip_trimmed. Qed.

Lemma fence_python_is_fence (s : string) :
  PyStr.contains "```python" s = true -> PyStr.contains "```" s = true.
Proof.
  rewrite !contains_spec. intros (a & b & ->).
  now exists a, ("python" +:+ b).
Qed.

(** X17. A text without a fence marker and without the declaration of
    [send_query] is only trimmed. *)
Theorem sanitize_only_trims_plain_text :
  forall implementation : string,
    PyStr.contains "```" implementation = false ->
    PyStr.contains "def send_query(" implementation = false ->
    sanitize implementation = PyStr.strip implementation.
Proof.
  intros s Hfence Hdef. unfold sanitize. cbn [PyStr.replace].
  assert (H1 : PyStr.contains "```" (PyStr.strip s) = false).
  { destruct (PyStr.contains "```" (PyStr.strip s)) eqn:E; [|reflexivity].
    apply contains_strip in E. congruence. }
  assert (H2 : PyStr.contains "```python" (PyStr.strip s) = false).
  { destruct (PyStr.contains "```python" (PyStr.strip s)) eqn:E;
      [|reflexivity].
    apply fence_python_is_fence in E. congruence. }
  assert (H3 : PyStr.contains "def send_query(" (PyStr.strip s) = false).
  { destruct (PyStr.contains "def send_query(" (PyStr.strip s)) eqn:E;
      [|reflexivity].
    apply contains_strip in E. congruence. }
  rewrite (replace_absent _ _ _ H2), (replace_absent _ _ _ H1), strip_strip.
  now apply replace_absent.
Qed.

Lemma sanitize_only_trims_plain_text_witness :
  sanitize "
def run(task_data):
  return {}
" = "def run(task_data):
  return {}".
Proof.
  refine (eq_trans (sanitize_only_trims_plain_text _ _ _) _); reflexivity.
Defined.

Lemma rename_not_empty (s : string) :
  PyStr.replace_from 0 "def send_query(" "def run(" s = "" -> s = "".
Proof.
  destruct s as [|c s]; [reflexivity|]. cbn [PyStr.replace_from].
  destruct (String.prefix _ _); discriminate.
Qed.

Lemma rename_lstrip (s : string) :
  PyStr.lstrip s = s ->
  PyStr.lstrip (PyStr.replace_from 0 "def send_query(" "def run(" s)
  = PyStr.replace_from 0 "def send_query(" "def run(" s.
Proof.
  destruct s as [|c s]; [reflexivity|]. intros H.
  apply lstrip_fixed in H. cbn [PyStr.replace_from].
  destruct (String.prefix _ _); [reflexivity|]. simpl. now rewrite H.
Qed.

Lemma rename_rstrip (s : string) :
  PyStr.rstrip s = s ->
  forall skip,
    PyStr.rstrip (PyStr.replace_from skip "def send_query(" "def run(" s)
    = PyStr.replace_from skip "def send_query(" "def run(" s.
Proof.
  induction s as [|c s IH]; intros H skip; [reflexivity|].
  assert (Htail : forall k,
            PyStr.rstrip (PyStr.replace_from k "def send_query(" "def run(" s)
            = PyStr.replace_from k "def send_query(" "def run(" s).
  { intros k. destruct s as [|x s']; [reflexivity|].
    apply IH. now apply (rstrip_tail c). }
  destruct skip as [|k]; cbn [PyStr.replace_from]; [|apply Htail].
  destruct (String.prefix "def send_query(" (String c s)) eqn:E.
  - rewrite rstrip_sapp_gen, Htail.
    now destruct (PyStr.replace_from _ _ _ s).
  - destruct (PyStr.replace_from 0 "def send_query(" "def run(" s)
      as [|x r] eqn:Er.
    + apply rename_not_empty in Er. now subst s.
    + apply rstrip_cons; [|discriminate]. rewrite <- Er. apply Htail.
Qed.

(** X18. The text returned for an implementation has no whitespace at
    its ends: trimming it again changes nothing. *)
Theorem sanitize_is_trimmed :
  forall implementation : string,
    PyStr.strip (sanitize implementation) = sanitize implementation.
Proof.
  intros s. unfold sanitize. cbn [PyStr.replace].
  set (t := PyStr.strip (PyStr.replace_from 0 "```" "" _)).
  destruct (strip_trimmed (PyStr.replace_from 0 "```" ""
              (PyStr.replace_from 0 "```python" "" (PyStr.strip s))))
    as [Hl Hr].
  fold t in Hl, Hr.
  apply strip_of_trimmed; [now apply rename_lstrip | now apply rename_rstrip].
Qed.

End SanitizeMore.

(** ** The adapter: fences and entry point *)

Section FenceFacts.

Lemma prefix_length (p s : string) :
  String.prefix p s = true -> String.length p <= String.length s.
Proof.
  intros H. apply prefix_spec in H as [rest ->]. rewrite length_sapp. lia.
Qed.

Lemma prefix_weaken (p q s : string) :
  String.prefix (p +:+ q) s = true -> String.prefix p s = true.
Proof.
  rewrite !prefix_spec. intros [rest ->]. exists (q +:+ rest).
  apply sapp_assoc.
Qed.

(** Whether [p] starts a text is decided by the first characters of the
    text, as many as [p] has. *)
Lemma prefix_long (p a b : string) :
  String.length p <= String.length a ->
  String.prefix p (a +:+ b) = String.prefix p a.
Proof.
  revert a. induction p as [|x p IH]; intros a H.
  - destruct a; [destruct b|]; reflexivity.
  - destruct a as [|y a]; [simpl in H; lia|]. simpl in *.
    destruct (ascii_dec x y); [apply IH; lia | reflexivity].
Qed.

Lemma contains_cons_false (sub : string) (c : ascii) (s : string) :
  PyStr.contains sub (String c s) = false ->
  String.prefix sub (String c s) = false /\ PyStr.contains sub s = false.
Proof. cbn [PyStr.contains]. apply orb_false_iff. Qed.

(** After a text without a fence marker, a closing marker starts no
    marker with the language tag. *)
Lemma no_tagged_fence_at_the_end (code : string) :
  PyStr.contains "```" code = false ->
  PyStr.contains "```python" (code +:+ "```") = false.
Proof.
  induction code as [|c code IH]; intros H; [reflexivity|].
  apply contains_cons_false in H as [Hp Hs].
  change (String c code +:+ "```") with (String c (code +:+ "```")).
  cbn [PyStr.contains]. rewrite (IH Hs), orb_false_r.
  destruct (String.prefix "```python" (String c (code +:+ "```"))) eqn:E;
    [exfalso | reflexivity].
  destruct (le_lt_dec 3 (String.length (String c code))) as [Hlen | Hlen].
  - apply (prefix_weaken "```" "python") in E.
    change (String c (code +:+ "```")) with (String c code +:+ "```") in E.
    rewrite prefix_long in E by exact Hlen. congruence.
  - apply prefix_length in E. simpl in E, Hlen. rewrite length_sapp in E.
    simpl in E. lia.
Qed.

(** Removing the markers from a text without one, followed by a closing
    marker, gives the text. *)
Lemma closing_fence_removed (code : string) :
  PyStr.contains "```" code = false ->
  PyStr.replace_from 0 "```" "" (code +:+ "```") = code.
Proof.
  induction code as [|c code IH]; intros H; [reflexivity|].
  apply contains_cons_false in H as [Hp Hs].
  change (String c code +:+ "```") with (String c (code +:+ "```")).
  cbn [PyStr.replace_from].
  destruct (String.prefix "```" (String c (code +:+ "```"))) eqn:E;
    [|now rewrite (IH Hs)].
  destruct (le_lt_dec 3 (String.length (String c code))) as [Hlen | Hlen].
  - change (String c (code +:+ "```")) with (String c code +:+ "```") in E.
    rewrite prefix_long in E by exact Hlen. congruence.
  - apply prefix_spec in E as [rest E].
    destruct code as [|c2 [|c3 code]]; [| |simpl in Hlen; lia];
      simpl in E; injection E as; subst; reflexivity.
Qed.

(** A text between fence markers is not touched by trimming. *)
Lemma strip_fenced (c0 : ascii) (body : string) :
  PyStr.isspace c0 = false ->
  PyStr.strip (String c0 (body +:+ "```")) = String c0 (body +:+ "```").
Proof.
  intros H. unfold PyStr.strip.
  change (String c0 (body +:+ "```")) with (String c0 body +:+ "```").
  rewrite rstrip_sapp by (reflexivity || discriminate).
  simpl. now rewrite H.
Qed.

Lemma strip_after_newline (code : string) :
  PyStr.strip (NL +:+ code) = PyStr.strip code.
Proof.
  rewrite <- (sapp_nil_r code) at 1. now apply strip_padded.
Qed.

(** At an occurrence of [old] the replacement puts [new] and goes on
    after the occurrence. *)
Lemma replace_at_head (old new rest : string) :
  old <> "" ->
  PyStr.replace_from 0 old new (old +:+ rest)
  = new +:+ PyStr.replace_from 0 old new rest.
Proof.
  intros Hne. destruct old as [|c old]; [congruence|].
  change (String c old +:+ rest) with (String c (old +:+ rest)).
  cbn [PyStr.replace_from].
  change (String c (old +:+ rest)) with (String c old +:+ rest).
  rewrite prefix_sapp, replace_from_skip.
  replace (String.length (String c old) - 1) with (String.length old)
    by (simpl; lia).
  now rewrite drop_sapp.
Qed.

Lemma contains_not_here (sub : string) (c : ascii) (s : string) :
  String.prefix sub (String c s) = false ->
  PyStr.contains sub (String c s) = PyStr.contains sub s.
Proof. intros H. cbn [PyStr.contains]. now rewrite H. Qed.

(** What is done to a block between the markers "```python" and "```". *)
Lemma sanitize_tagged_fence (before code after : string) :
  PyStr.lstrip before = "" -> PyStr.lstrip after = "" ->
  PyStr.contains "```" code = false ->
  sanitize (before +:+ "```python" +:+ code +:+ "```" +:+ after)
  = PyStr.replace "def send_query(" "def run(" (PyStr.strip code).
Proof.
  intros Hb Ha Hcode. unfold sanitize.
  replace (before +:+ "```python" +:+ code +:+ "```" +:+ after)
    with (before +:+ ("```python" +:+ code +:+ "```") +:+ after)
    by now rewrite !sapp_assoc.
  rewrite (strip_padded _ _ _ Hb Ha).
  change ("```python" +:+ code +:+ "```")
    with (String "`" (("``python" +:+ code) +:+ "```")).
  rewrite strip_fenced by reflexivity.
  change (String "`" (("``python" +:+ code) +:+ "```"))
    with ("```python" +:+ (code +:+ "```")).
  cbn [PyStr.replace]. rewrite replace_at_head by discriminate.
  rewrite (replace_absent _ _ _ (no_tagged_fence_at_the_end code Hcode)).
  change ("" +:+ (code +:+ "```")) with (code +:+ "```").
  now rewrite (closing_fence_removed code Hcode).
Qed.

(** What is done to a block between two markers "```", the first of
    which ends its line. *)
Lemma sanitize_bare_fence (before code after : string) :
  PyStr.lstrip before = "" -> PyStr.lstrip after = "" ->
  PyStr.contains "```" code = false ->
  sanitize (before +:+ "```" +:+ NL +:+ code +:+ "```" +:+ after)
  = PyStr.replace "def send_query(" "def run(" (PyStr.strip code).
Proof.
  intros Hb Ha Hcode. unfold sanitize.
  replace (before +:+ "```" +:+ NL +:+ code +:+ "```" +:+ after)
    with (before +:+ ("```" +:+ NL +:+ code +:+ "```") +:+ after)
    by now rewrite !sapp_assoc.
  rewrite (strip_padded _ _ _ Hb Ha).
  change ("```" +:+ NL +:+ code +:+ "```")
    with (String "`" (("``" +:+ NL +:+ code) +:+ "```")).
  rewrite strip_fenced by reflexivity.
  assert (Hcode' : PyStr.contains "```" (NL +:+ code) = false).
  { change (NL +:+ code) with (String (ascii_of_nat 10) code).
    now rewrite contains_not_here by reflexivity. }
  assert (Hnone :
    PyStr.contains "```python"
      (String "`" (("``" +:+ NL +:+ code) +:+ "```")) = false).
  { change (String "`" (("``" +:+ NL +:+ code) +:+ "```"))
      with (String "`" (String "`" (String "`" ((NL +:+ code) +:+ "```")))).
    rewrite !contains_not_here by reflexivity.
    now apply no_tagged_fence_at_the_end. }
  cbn [PyStr.replace]. rewrite (replace_absent _ _ _ Hnone).
  change (String "`" (("``" +:+ NL +:+ code) +:+ "```"))
    with ("```" +:+ ((NL +:+ code) +:+ "```")).
  rewrite replace_at_head by discriminate.
  rewrite (closing_fence_removed _ Hcode').
  change ("" +:+ (NL +:+ code)) with (NL +:+ code).
  now rewrite strip_after_newline.
Qed.

(** What is done to a block without any marker. *)
Lemma sanitize_unfenced (implementation : string) :
  PyStr.contains "```" implementation = false ->
  sanitize implementation
  = PyStr.replace "def send_query(" "def run(" (PyStr.strip implementation).
Proof.
  intros Hfence. unfold sanitize. cbn [PyStr.replace].
  assert (H1 : PyStr.contains "```" (PyStr.strip implementation) = false).
  { destruct (PyStr.contains "```" (PyStr.strip implementation)) eqn:E;
      [|reflexivity].
    apply contains_strip in E. congruence. }
  assert (H2 : PyStr.contains "```python" (PyStr.strip implementation)
               = false).
  { destruct (PyStr.contains "```python" (PyStr.strip implementation)) eqn:E;
      [|reflexivity].
    apply fence_python_is_fence in E. congruence. }
  now rewrite (replace_absent _ _ _ H2), (replace_absent _ _ _ H1),
    strip_strip.
Qed.

(** The renaming replaces the first declaration of [send_query], keeps
    the text before it and goes on after it. *)
Lemma rename_first (before after : string) :
  PyStr.contains "def send_query(" (before +:+ "def send_query") = false ->
  PyStr.replace "def send_query(" "def run("
    (before +:+ "def send_query(" +:+ after)
  = before +:+ "def run("
      +:+ PyStr.replace "def send_query(" "def run(" after.
Proof.
  cbn [PyStr.replace].
  induction before as [|c before IH]; intros H.
  - destruct after; reflexivity.
  - change (String c before +:+ "def send_query")
      with (String c (before +:+ "def send_query")) in H.
    apply contains_cons_false in H as [Hp Hs].
    change (String c before +:+ "def send_query(" +:+ after)
      with (String c (before +:+ "def send_query(" +:+ after)).
    cbn [PyStr.replace_from].
    replace (String c (before +:+ "def send_query(" +:+ after))
      with (String c (before +:+ "def send_query") +:+ "(" +:+ after)
      by (simpl; now rewrite sapp_assoc).
    rewrite prefix_long, Hp.
    + replace (String c (before +:+ "def send_query") +:+ "(" +:+ after)
        with (String c (before +:+ "def send_query(" +:+ after))
        by (simpl; now rewrite sapp_assoc).
      rewrite (IH Hs). reflexivity.
    + simpl. rewrite length_sapp. simpl. lia.
Qed.

End FenceFacts.

Section AdapterFacts.

Context {Conversation : Type}.
Variable new_conversation : string -> list Tool.t -> string -> Conversation.
Variable chat : Conversation -> string -> string * Conversation.
Variable extract_substring : string -> string -> string -> option string.
Variable json_dumps : option nat -> json -> string.
Variable TASK_PROGRAMMER_PROMPT : string.

#[local] Abbreviation implementation_of' reply :=
  (extract_substring reply "<IMPLEMENTATION>" "</IMPLEMENTATION>").


End AdapterFacts.



Lemma more_attempts_keep_the_adapter_witness :
  exists sent,
    SenderProgrammer_call (fun _ _ _ => 0) coding_chat extract_substring_model
      (fun _ _ => "{}") "" 1 JNull "protocol"
    = (Ok "def run(task_data):
  return {}", sent)
    /\ SenderProgrammer_call (fun _ _ _ => 0) coding_chat
         extract_substring_model (fun _ _ => "{}") "" 5 JNull "protocol"
       = (Ok "def run(task_data):
  return {}", sent).
Proof.
  eexists. split; [reflexivity|].
  apply (more_attempts_keep_the_adapter (fun _ _ _ => 0) coding_chat
           extract_substring_model (fun _ _ => "{}") "" 1 5);
    [lia | reflexivity].
Defined.

(** ** The Camel toolformer *)

(** X20. [make_openai_toolformer] never returns a toolformer. A model
    type other than "gpt-4o" and "gpt-4o-mini" is refused with a
    ValueError before anything else is done; for these two, once the
    tools and the configuration are made, the constructor is called with
    the keywords [system_prompt] and [tools], which [__init__] does not
    have, and the call raises TypeError for the first of them. *)
Theorem make_openai_toolformer_never_returns :
  forall (ToolLike FormattedTools Config : Type)
         (function_tools : list ToolLike -> outcome FormattedTools)
         (chat_gpt_config : FormattedTools -> outcome Config)
         (model_type_internal system_prompt : string)
         (tools : list ToolLike),
    let made :=
      Camel.make_openai_toolformer function_tools chat_gpt_config
        model_type_internal system_prompt tools in
    (forall toolformer, made <> Camel.Ok toolformer)
    /\ (model_type_internal <> "gpt-4o" ->
        model_type_internal <> "gpt-4o-mini" ->
        exists msg, made = Camel.Raise (Camel.ValueError msg))
    /\ (forall formatted_tools config,
           model_type_internal = "gpt-4o"
           \/ model_type_internal = "gpt-4o-mini" ->
           function_tools tools = Returned formatted_tools ->
           chat_gpt_config formatted_tools = Returned config ->
           made
           = Camel.Raise (Camel.TypeError
               "CamelToolformer.__init__() got an unexpected keyword argument 'system_prompt'")).
Proof.
  intros ToolLike FormattedTools Config function_tools chat_gpt_config
    internal system_prompt tools made. subst made.
  unfold Camel.make_openai_toolformer. split; [|split].
  - intros toolformer.
    destruct (String.eqb internal "gpt-4o");
      [|destruct (String.eqb internal "gpt-4o-mini"); [|discriminate]];
      (destruct (function_tools tools) as [formatted_tools|e];
         [|discriminate]);
      (destruct (chat_gpt_config formatted_tools) as [config|e];
         [|discriminate]);
      discriminate.
  - intros H1 H2. apply String.eqb_neq in H1, H2. rewrite H1, H2. eauto.
  - intros formatted_tools config Hm -> ->.
    destruct Hm as [-> | ->]; reflexivity.
Qed.

Lemma make_openai_toolformer_never_returns_witness :
  Camel.make_openai_toolformer (ToolLike := Tool.t)
    (fun tools => Returned (length tools))
    (fun formatted => Returned (formatted, "temperature 0.2"))
    "gpt-4o" "You are a helpful assistant." [dividing_tool]
  = Camel.Raise (Camel.TypeError
      "CamelToolformer.__init__() got an unexpected keyword argument 'system_prompt'").
Proof.
  exact (proj2 (proj2 (make_openai_toolformer_never_returns Tool.t nat
           (nat * string) (fun tools => Returned (length tools))
           (fun formatted => Returned (formatted, "temperature 0.2"))
           "gpt-4o" "You are a helpful assistant." [dividing_tool]))
           1 (1, "temperature 0.2") (or_introl eq_refl) eq_refl eq_refl).
Defined.

(** ** The Gemini declaration of a tool *)

Section GeminiFacts.

Lemma gemini_properties_snoc (ps : list parameter) (p : parameter) :
  gemini_properties (ps ++ [p])%list
  = <[name p := JDict (as_gemini_tool p)]> (gemini_properties ps).
Proof. unfold gemini_properties. now rewrite foldl_snoc. Qed.

Lemma gemini_properties_distinct (ps : list parameter) :
  NoDup (name <$> ps) ->
  forall p, In p ps ->
    gemini_properties ps !! name p = Some (JDict (as_gemini_tool p)).
Proof.
  induction ps as [|a ps IH] using rev_ind; intros Hnd p Hin; [easy|].
  rewrite gemini_properties_snoc. rewrite fmap_app in Hnd.
  apply NoDup_app in Hnd as (Hps & Hfresh & _).
  apply in_app_or in Hin as [Hin | [<- | []]].
  - rewrite lookup_insert_ne; [now apply IH|].
    intros Heq. apply (Hfresh (name p)).
    + apply list_elem_of_fmap. exists p. split; [reflexivity|].
      now apply list_elem_of_In.
    + apply list_elem_of_fmap. exists a.
      split; [now symmetry | apply list_elem_of_here].
  - apply lookup_insert_eq.
Qed.

(** Among parameters of distinct names, the name tells the parameter. *)
Lemma name_tells_parameter (ps : list parameter) (p q : parameter) :
  NoDup (name <$> ps) -> In p ps -> In q ps -> name q = name p -> q = p.
Proof.
  induction ps as [|a ps IH]; intros Hnd Hp Hq Hname; [destruct Hp|].
  cbn [fmap list_fmap] in Hnd. apply NoDup_cons in Hnd as [Hfresh Hnd].
  assert (Hin : forall x, In x ps -> name x ∈ name <$> ps).
  { intros x Hx. apply list_elem_of_fmap. exists x.
    split; [reflexivity | now apply list_elem_of_In]. }
  destruct Hp as [-> | Hp], Hq as [-> | Hq].
  - reflexivity.
  - destruct Hfresh. rewrite <- Hname. now apply Hin.
  - destruct Hfresh. rewrite Hname. now apply Hin.
  - now apply IH.
Qed.

(** X21. The Gemini declaration of a tool has no parameters entry when
    the tool has no parameters. When it has parameters, of distinct
    names, every parameter can be read back from the declaration: its
    schema stands under its name in "properties", its name is in
    "required" exactly when it is required, and
    [parameter_from_openai_api] makes the parameter again of the two.
    The function declared is the one that catches exceptions. *)
Theorem gemini_declaration_tells_the_parameters :
  forall tool : Tool.t,
    declared_function (Tool_as_gemini_tool tool)
    = Tool.call_tool_for_toolformer tool
    /\ (Tool.parameters tool = [] ->
        declared_parameters (Tool_as_gemini_tool tool) = None)
    /\ (Tool.parameters tool <> [] ->
        NoDup (name <$> Tool.parameters tool) ->
        exists props req,
          declared_parameters (Tool_as_gemini_tool tool)
          = Some {[ "type" := JStr "object";
                    "properties" := JDict props;
                    "required" := JList req ]}
          /\ forall p, In p (Tool.parameters tool) ->
               exists schema,
                 props !! name p = Some (JDict schema)
                 /\ (In (JStr (name p)) req <-> required p = true)
                 /\ parameter_from_openai_api (name p) schema (required p)
                    = Ok p).
Proof.
  intros tool. split; [reflexivity|]. unfold Tool_as_gemini_tool.
  split; [now intros ->|]. intros Hne Hnd.
  destruct (Tool.parameters tool) as [|a ps] eqn:E; [now destruct Hne|].
  cbn [declared_parameters]. eexists _, _. split; [reflexivity|].
  intros p Hp. exists (as_gemini_tool p). split; [|split].
  - now apply gemini_properties_distinct.
  - rewrite required_names_spec. split.
    + intros (q & Hq & Hname & Hreq).
      now rewrite <- (name_tells_parameter (a :: ps) p q).
    + intros Hreq. now exists p.
  - apply gemini_reads_back.
Qed.

End GeminiFacts.

Lemma gemini_declaration_tells_the_parameters_witness :
  exists props req,
    declared_parameters (Tool_as_gemini_tool dividing_tool)
    = Some {[ "type" := JStr "object";
              "properties" := JDict props;
              "required" := JList req ]}
    /\ forall p, In p (Tool.parameters dividing_tool) ->
         exists schema,
           props !! name p = Some (JDict schema)
           /\ (In (JStr (name p)) req <-> required p = true)
           /\ parameter_from_openai_api (name p) schema (required p) = Ok p.
Proof.
  apply (proj2 (proj2 (gemini_declaration_tells_the_parameters dividing_tool))).
  - discriminate.
  - apply NoDup_singleton.
Defined.
